(** * A shallow embedding of the service worker of the PWA test application

    The service worker script registers handlers for the [install],
    [activate], [fetch] and [message] events.  Each handler is a chain of
    promises over the platform's cache storage and network transport.  The
    embedding below keeps that shape: a promise is a computation over an
    explicit world (cache storage, console, network traffic, calls made on
    the worker itself) that settles as fulfilled or rejected, and the
    handlers are written with [then_] and [catch_] exactly where the script
    writes [.then] and [.catch]. *)

From Stdlib Require Import String List Bool Arith Lia ZArith DecimalString.
Import ListNotations.
Local Open Scope string_scope.

(** ** Values *)

(** [Response.type] of the Fetch standard. *)
Inductive ResponseType : Type :=
| basic | cors | default | error | opaque | opaqueredirect.

Record Response : Type := mkResponse
  { status : nat;
    statusText : string;
    type : ResponseType;
    body : string }.

Record Request : Type := mkRequest
  { method : string;
    url : string;
    destination : string }.

(** Exceptions and rejection reasons. *)
Inductive JsError : Type :=
| TypeError (message : string)
| DOMException (name message : string).

Definition error_to_string (e : JsError) : string :=
  match e with
  | TypeError m => "TypeError: " ++ m
  | DOMException n m => n ++ ": " ++ m
  end.

(** The state a promise is in once it has settled. *)
Inductive Settled (A : Type) : Type :=
| Fulfilled (a : A)
| Rejected (e : JsError).
Arguments Fulfilled {A} a.
Arguments Rejected {A} e.

Definition is_fulfilled {A : Type} (s : Settled A) : bool :=
  match s with Fulfilled _ => true | Rejected _ => false end.

(** Data carried by a message event, after structured cloning. *)
#[local] Set Warnings "-register-all".
Inductive JsValue : Type :=
| JUndefined
| JNull
| JBool (b : bool)
| JNumber (n : Z)
| JString (s : string)
| JObject (fields : list (string * JsValue)).
#[local] Set Warnings "register-all".

(** ** The world the worker runs in *)

(** One cache: request identity (URL of a GET request) to stored response,
    in insertion order. *)
Definition Cache : Type := list (string * Response).

(** The cache storage: namespace name to cache, in creation order. *)
Definition CacheStorage : Type := list (string * Cache).

Record World : Type := mkWorld
  { caches : CacheStorage;
    console : list string;
    network : list Request;
    skipWaiting_calls : nat;
    claim_calls : nat }.

(** The external collaborators whose outcome the worker does not control:
    what the network transport answers to a request; whether deleting a
    namespace fails; whether the cache store refuses to write a response
    under a request ([cache.put] rejects a response whose [Vary] header is
    [*], or when the quota is exceeded, and then stores nothing); and, when
    [cache.addAll] refuses a batch, which of its requests were aborted
    before they went out. *)
Record Platform : Type := mkPlatform
  { transport : Request -> Settled Response;
    delete_failure : string -> option JsError;
    put_failure : Request -> Response -> option JsError;
    addAll_aborted : Request -> bool }.

Definition set_caches (cs : CacheStorage) (w : World) : World :=
  mkWorld cs (console w) (network w) (skipWaiting_calls w) (claim_calls w).

(** ** Promises *)

Definition Promise (A : Type) : Type := World -> Settled A * World.

Definition resolve {A : Type} (a : A) : Promise A :=
  fun w => (Fulfilled a, w).

Definition reject {A : Type} (e : JsError) : Promise A :=
  fun w => (Rejected e, w).

(** [p.then(f)] *)
Definition then_ {A B : Type} (p : Promise A) (f : A -> Promise B) : Promise B :=
  fun w =>
    match p w with
    | (Fulfilled a, w1) => f a w1
    | (Rejected e, w1) => (Rejected e, w1)
    end.

(** [p.catch(h)] *)
Definition catch_ {A : Type} (p : Promise A) (h : JsError -> Promise A) : Promise A :=
  fun w =>
    match p w with
    | (Fulfilled a, w1) => (Fulfilled a, w1)
    | (Rejected e, w1) => h e w1
    end.

(** A promise that is started and never awaited: its effects happen, its
    outcome is dropped. *)
Definition detached {A : Type} (p : Promise A) : Promise unit :=
  fun w => (Fulfilled tt, snd (p w)).

Declare Scope promise_scope.
Delimit Scope promise_scope with promise.
Notation "s ;; p" := (then_ s (fun _ => p))
  (at level 61, right associativity) : promise_scope.
Local Open Scope promise_scope.

(** [array.map(f)] where [f] starts a promise for each element: every
    promise is started, in order, whatever the others do. *)
Fixpoint array_map {A B : Type} (f : A -> Promise B) (l : list A)
  (w : World) : list (Settled B) * World :=
  match l with
  | [] => ([], w)
  | x :: l' =>
      let (o, w1) := f x w in
      let (os, w2) := array_map f l' w1 in
      (o :: os, w2)
  end.

(** What [Promise.all] settles to, from what its elements settle to. *)
Fixpoint all_settled {A : Type} (os : list (Settled A)) : Settled (list A) :=
  match os with
  | [] => Fulfilled []
  | Rejected e :: _ => Rejected e
  | Fulfilled a :: os' =>
      match all_settled os' with
      | Fulfilled l => Fulfilled (a :: l)
      | Rejected e => Rejected e
      end
  end.

Definition Promise_all {A : Type} (os : list (Settled A)) : Promise (list A) :=
  fun w => (all_settled os, w).

(** ** Cache storage, as the platform implements it *)

Definition cache_match (u : string) (c : Cache) : option Response :=
  option_map snd (find (fun p => fst p =? u) c).

Definition cache_put (u : string) (r : Response) (c : Cache) : Cache :=
  (filter (fun p => negb (fst p =? u)) c ++ [(u, r)])%list.

Definition cache_put_all (entries : list (string * Response)) (c : Cache) : Cache :=
  fold_left (fun acc p => cache_put (fst p) (snd p) acc) entries c.

(** [CacheStorage.match]: the caches are searched in creation order. *)
Fixpoint storage_match (u : string) (cs : CacheStorage) : option Response :=
  match cs with
  | [] => None
  | (_, c) :: cs' =>
      match cache_match u c with
      | Some r => Some r
      | None => storage_match u cs'
      end
  end.

Definition storage_get (name : string) (cs : CacheStorage) : option Cache :=
  option_map snd (find (fun p => fst p =? name) cs).

Definition storage_has (name : string) (cs : CacheStorage) : bool :=
  existsb (fun p => fst p =? name) cs.

Definition storage_keys (cs : CacheStorage) : list string := map fst cs.

Definition storage_open (name : string) (cs : CacheStorage) : CacheStorage :=
  if storage_has name cs then cs else (cs ++ [(name, [])])%list.

Definition storage_update (name : string) (f : Cache -> Cache)
  (cs : CacheStorage) : CacheStorage :=
  map (fun p => if fst p =? name then (fst p, f (snd p)) else p) cs.

Definition storage_delete (name : string) (cs : CacheStorage) : CacheStorage :=
  filter (fun p => negb (fst p =? name)) cs.

(** [caches.open(name).then(c => c.match(u))]: the entry of [u] in the
    namespace called [name], without creating the namespace. *)
Definition namespace_lookup (name u : string) (cs : CacheStorage) : option Response :=
  match storage_get name cs with
  | Some c => cache_match u c
  | None => None
  end.

(** ** Platform operations as promises *)

Definition set_console (l : list string) (w : World) : World :=
  mkWorld (caches w) l (network w) (skipWaiting_calls w) (claim_calls w).

Definition console_log (line : string) : Promise unit :=
  fun w => (Fulfilled tt, set_console (console w ++ [line])%list w).

(** [caches.open(name)]: creates the namespace when absent; the handle is
    the name. *)
Definition caches_open (name : string) : Promise string :=
  fun w => (Fulfilled name, set_caches (storage_open name (caches w)) w).

(** [caches.match(u)]: [None] is JavaScript's [undefined]. *)
Definition caches_match (u : string) : Promise (option Response) :=
  fun w => (Fulfilled (storage_match u (caches w)), w).

Definition caches_keys : Promise (list string) :=
  fun w => (Fulfilled (storage_keys (caches w)), w).

(** [caches.delete(name)]: fulfils with whether the namespace existed, or
    rejects and leaves the storage as it is. *)
Definition caches_delete (pf : Platform) (name : string) : Promise bool :=
  fun w =>
    match delete_failure pf name with
    | Some e => (Rejected e, w)
    | None =>
        (Fulfilled (storage_has name (caches w)),
         set_caches (storage_delete name (caches w)) w)
    end.

(** [cache.put(request, response)] on the cache [cache]: the entry is
    written, or the store refuses, rejects and writes nothing. *)
Definition cache_put_ (pf : Platform) (cache : string) (request : Request)
  (response : Response) : Promise unit :=
  fun w =>
    match put_failure pf request response with
    | Some e => (Rejected e, w)
    | None =>
        (Fulfilled tt,
         set_caches
           (storage_update cache (cache_put (url request) response) (caches w)) w)
    end.

(** [fetch(request)]: the request goes out on the network. *)
Definition fetch (pf : Platform) (request : Request) : Promise Response :=
  fun w =>
    (transport pf request,
     mkWorld (caches w) (console w) (network w ++ [request])%list
       (skipWaiting_calls w) (claim_calls w)).

(** The request [cache.addAll] builds from a path. *)
Definition request_of_path (path : string) : Request := mkRequest "GET" path "".

(** A response [cache.addAll] accepts: an ok status other than 206. *)
Definition addAll_accepts (r : Response) : bool :=
  ((200 <=? status r) && (status r <=? 299) && negb (status r =? 206))%nat.

Definition addAll_fetch (pf : Platform) (path : string) : Promise Response :=
  then_ (fetch pf (request_of_path path))
    (fun r => if addAll_accepts r then resolve r
              else reject (TypeError "Request failed")).

(** [cache.addAll(paths)]: a fetch is started for every path; the entries
    are written only when every fetch gave an acceptable response.  When
    the batch is refused the fetches still outstanding are aborted, so that
    only the requests the platform did not abort have gone out. *)
Definition cache_addAll (pf : Platform) (cache : string) (paths : list string)
  : Promise unit :=
  fun w =>
    let (os, w1) := array_map (addAll_fetch pf) paths w in
    match all_settled os with
    | Fulfilled rs =>
        (Fulfilled tt,
         set_caches
           (storage_update cache (cache_put_all (combine paths rs)) (caches w1)) w1)
    | Rejected e =>
        (Rejected e,
         mkWorld (caches w1) (console w1)
           (network w
            ++ filter (fun rq => negb (addAll_aborted pf rq))
                 (map request_of_path paths))%list
           (skipWaiting_calls w1) (claim_calls w1))
    end.

Definition self_skipWaiting : Promise unit :=
  fun w =>
    (Fulfilled tt,
     mkWorld (caches w) (console w) (network w) (S (skipWaiting_calls w))
       (claim_calls w)).

Definition clients_claim : Promise unit :=
  fun w =>
    (Fulfilled tt,
     mkWorld (caches w) (console w) (network w) (skipWaiting_calls w)
       (S (claim_calls w))).

(** [response.clone()] *)
Definition clone (r : Response) : Response := r.

(** ** The service worker script *)

Definition CACHE_NAME : string := "pwa-test-cache-v1".
Definition OFFLINE_URL : string := "/offline.html".

Definition CACHE_RESOURCES : list string :=
  [ "/";
    "/index.html";
    "/manifest.json";
    "/offline.html";
    "/css/style.css";
    "/js/app.js";
    "/js/install.js";
    "/js/push.js";
    "/icons/icon-192x192.png";
    "/icons/icon-512x512.png" ].

Definition log (message : string) : Promise unit :=
  console_log ("[Service Worker] " ++ message).

(** The promise the install listener hands to [event.waitUntil]. *)
Definition handle_install (pf : Platform) : Promise unit :=
  log "Service Worker インストール中..." ;;
  catch_
    (then_
       (then_ (caches_open CACHE_NAME)
          (fun cache =>
             log "キャッシュを開いて必要なリソースを追加中..." ;;
             cache_addAll pf cache CACHE_RESOURCES))
       (fun _ =>
          log "事前キャッシュ完了" ;;
          self_skipWaiting))
    (fun error => log ("キャッシュエラー: " ++ error_to_string error)).

(** The promise the activate listener hands to [event.waitUntil]. *)
Definition handle_activate (pf : Platform) : Promise unit :=
  log "Service Worker アクティベート中..." ;;
  then_
    (then_ caches_keys
       (fun cacheNames w =>
          let (deletePromises, w1) :=
            array_map
              (fun cacheName =>
                 log ("古いキャッシュを削除: " ++ cacheName) ;;
                 caches_delete pf cacheName)
              (filter (fun cacheName => negb (cacheName =? CACHE_NAME)) cacheNames)
              w in
          Promise_all deletePromises w1))
    (fun _ =>
       log "Service Worker アクティベート完了" ;;
       clients_claim).

(** [new Response('オフライン', { status: 408, statusText: 'Offline' })] *)
Definition offline_response : Response :=
  mkResponse 408 "Offline" default "オフライン".

(** The promise the fetch listener hands to [event.respondWith].  [fetch]
    fulfils with a response object, so of the test
    [!response || response.status !== 200 || response.type !== 'basic']
    the first disjunct is never true. *)
Definition respond (pf : Platform) (request : Request) : Promise (option Response) :=
  catch_
    (then_ (caches_match (url request))
       (fun cachedResponse =>
          match cachedResponse with
          | Some cached =>
              log ("キャッシュからレスポンス: " ++ url request) ;;
              resolve (Some cached)
          | None =>
              log ("ネットワークから取得: " ++ url request) ;;
              then_ (fetch pf request)
                (fun response =>
                   if negb (status response =? 200)%nat
                      || negb (match type response with basic => true | _ => false end)
                   then resolve (Some response)
                   else
                     let responseToCache := clone response in
                     detached
                       (then_ (caches_open CACHE_NAME)
                          (fun cache =>
                             detached
                               (cache_put_ pf cache request responseToCache) ;;
                             log ("キャッシュに追加: " ++ url request))) ;;
                     resolve (Some response))
          end))
    (fun _ =>
       log ("オフライン: " ++ url request) ;;
       if destination request =? "document"
       then caches_match OFFLINE_URL
       else resolve (Some offline_response)).

(** The fetch listener: [None] when it returns without calling
    [event.respondWith], otherwise what the promise given to it settles to. *)
Definition handle_fetch (pf : Platform) (request : Request) (w : World)
  : option (Settled (option Response)) * World :=
  if negb (method request =? "GET") then (None, w)
  else let (r, w1) := respond pf request w in (Some r, w1).

(** *** The message listener *)

(** How a statement completes: normally, or by throwing. *)
Inductive Completion (A : Type) : Type :=
| Normal (a : A)
| Throw (e : JsError).
Arguments Normal {A} a.
Arguments Throw {A} e.

(** [v.type] *)
Definition get_type (v : JsValue) : Completion JsValue :=
  match v with
  | JUndefined =>
      Throw (TypeError "Cannot read properties of undefined (reading 'type')")
  | JNull =>
      Throw (TypeError "Cannot read properties of null (reading 'type')")
  | JObject fields =>
      match find (fun p => fst p =? "type") fields with
      | Some p => Normal (snd p)
      | None => Normal JUndefined
      end
  | _ => Normal JUndefined
  end.

(** A value inside a template literal. *)
Definition to_string (v : JsValue) : string :=
  match v with
  | JUndefined => "undefined"
  | JNull => "null"
  | JBool true => "true"
  | JBool false => "false"
  | JNumber n => NilZero.string_of_int (Z.to_int n)
  | JString s => s
  | JObject _ => "[object Object]"
  end.

Definition truthy (v : JsValue) : bool :=
  match v with
  | JUndefined | JNull => false
  | JBool b => b
  | JNumber n => negb (n =? 0)%Z
  | JString s => negb (s =? "")
  | JObject _ => true
  end.

(** [v === 'SKIP_WAITING'] *)
Definition is_SKIP_WAITING (v : JsValue) : bool :=
  match v with
  | JString s => s =? "SKIP_WAITING"
  | _ => false
  end.

(** The message listener, on [event.data]. *)
Definition handle_message (data : JsValue) (w : World) : Completion unit * World :=
  match get_type data with
  | Throw e => (Throw e, w)
  | Normal t =>
      let w1 := snd (log ("メッセージ受信: " ++ to_string t) w) in
      if truthy data
         && match get_type data with
            | Normal t' => is_SKIP_WAITING t'
            | Throw _ => false
            end
      then
        let w2 := snd (log "Service Worker 更新をスキップ" w1) in
        (Normal tt, snd (self_skipWaiting w2))
      else (Normal tt, w1)
  end.

(** ** Closed forms used in the proofs *)

(** What [cache.addAll] learns about one path: it does not depend on the
    world. *)
Definition addAll_outcome (pf : Platform) (path : string) : Settled Response :=
  match transport pf (request_of_path path) with
  | Fulfilled r =>
      if addAll_accepts r then Fulfilled r else Rejected (TypeError "Request failed")
  | Rejected e => Rejected e
  end.

(** A namespace survives the deletions started for [names] when none of
    them targets it and goes through. *)
Definition survives (pf : Platform) (names : list string) (p : string * Cache) : bool :=
  negb (existsb
          (fun n => (fst p =? n)
                    && match delete_failure pf n with None => true | Some _ => false end)
          names).

Definition deletes_cleanly (pf : Platform) (n : string) : bool :=
  match delete_failure pf n with None => true | Some _ => false end.

Definition stale_names (cs : CacheStorage) : list string :=
  filter (fun cacheName => negb (cacheName =? CACHE_NAME)) (storage_keys cs).

Definition deletion_line (cacheName : string) : string :=
  "[Service Worker] " ++ "古いキャッシュを削除: " ++ cacheName.

(** An old entry a batch of writes does not replace. *)
Definition not_written (es : list (string * Response)) (p : string * Response) : bool :=
  negb (existsb (fun e => fst p =? fst e) es).

(** ** Sample platforms, worlds and requests *)

Definition fresh_world : World := mkWorld [] [] [] 0 0.

Definition page (content : string) : Response := mkResponse 200 "OK" basic content.

(** No network: every request fails. *)
Definition offline_platform : Platform :=
  mkPlatform (fun _ => Rejected (TypeError "Failed to fetch")) (fun _ => None)
    (fun _ _ => None) (fun _ => false).

(** A server that answers every request with an ordinary page. *)
Definition online_platform : Platform :=
  mkPlatform (fun rq => Fulfilled (page (url rq))) (fun _ => None)
    (fun _ _ => None) (fun _ => false).

(** A server whose pages carry the header [Vary: *]: the cache store
    refuses to write them. *)
Definition vary_platform : Platform :=
  mkPlatform (fun rq => Fulfilled (page (url rq))) (fun _ => None)
    (fun _ _ => Some (TypeError "Vary header contains *")) (fun _ => false).

(** A server that knows no resource. *)
Definition not_found_platform : Platform :=
  mkPlatform (fun _ => Fulfilled (mkResponse 404 "Not Found" basic "")) (fun _ => None)
    (fun _ _ => None) (fun _ => false).

(** A platform on which the namespace [pwa-test-cache-v0] cannot be deleted. *)
Definition stuck_platform : Platform :=
  mkPlatform (fun rq => Fulfilled (page (url rq)))
    (fun n => if n =? "pwa-test-cache-v0"
              then Some (DOMException "UnknownError" "delete failed")
              else None)
    (fun _ _ => None) (fun _ => false).

Definition navigation : Request := mkRequest "GET" "/about.html" "document".
Definition stylesheet : Request := mkRequest "GET" "/css/extra.css" "style".
Definition index_request : Request := mkRequest "GET" "/index.html" "document".

(** The storage once the manifest has been installed from
    [online_platform]. *)
Definition installed_world : World :=
  snd (handle_install online_platform fresh_world).

(** Two generations of the cache side by side: [v0] was created first and
    holds an older copy of the index page. *)
Definition two_generations : World :=
  mkWorld
    [ ("pwa-test-cache-v0", [("/index.html", page "old index")]);
      (CACHE_NAME, [("/index.html", page "new index")]);
      ("pwa-test-cache-beta", [("/beta.html", page "beta")]) ]
    [] [] 0 0.

(** ** The notification listeners of the script *)

(** Values a push payload parses to. *)
#[local] Set Warnings "-register-all".
Inductive Json : Type :=
| json_null
| json_bool (b : bool)
| json_number (n : Z)
| json_string (s : string)
| json_array (items : list Json)
| json_object (members : list (string * Json)).
#[local] Set Warnings "register-all".

(** [event.data] of a push event: what [json()] gives (the parsed value, or
    the error it throws, as a template literal prints it) and what [text()]
    gives. *)
Inductive Parsed : Type :=
| parsed (value : Json)
| syntax_error (printed : string).

Record PushMessageData : Type := mkPushMessageData
  { json : Parsed;
    text : string }.

(** The second argument of [showNotification] as the push listener builds
    it. *)
Record NotificationOptions : Type := mkNotificationOptions
  { body_ : Json;
    icon : Json;
    badge : string;
    vibrate : list nat;
    dateOfArrival : Z;
    primaryKey : nat;
    actions : list (string * string * string) }.

(** A window client as [clients.matchAll] reports it: its URL, whether it
    has a [focus] method, and the error [focus()] rejects with, if any. *)
Record Client : Type := mkClient
  { client_url : string;
    has_focus : bool;
    focus_failure : option JsError }.

(** The worker's world together with what it did to notifications and
    windows: calls of [event.notification.close], of [client.focus] (by
    client URL), of [clients.openWindow] (by URL) and of
    [registration.showNotification]. *)
Record Desk : Type := mkDesk
  { world : World;
    close_calls : nat;
    focus_calls : list string;
    openWindow_calls : list string;
    showNotification_calls : list (Json * NotificationOptions) }.

(** What the platform decides for the notification listeners. *)
Record NotificationPlatform : Type := mkNotificationPlatform
  { matchAll : Settled (list Client);
    origin : string;
    openWindow_defined : bool;
    openWindow_failure : option JsError;
    showNotification_failure : option JsError;
    JSON_stringify : Json -> string;
    Date_now : Z }.

Definition desk_log (message : string) (d : Desk) : Desk :=
  mkDesk (snd (log message (world d))) (close_calls d) (focus_calls d)
    (openWindow_calls d) (showNotification_calls d).

Definition settle (failure : option JsError) : Settled unit :=
  match failure with
  | None => Fulfilled tt
  | Some e => Rejected e
  end.

(** [s.includes(search)] *)
Definition includes (s search : string) : bool :=
  match index 0 search s with
  | Some _ => true
  | None => false
  end.

(** The loop over the client list: the first client whose URL includes the
    origin and that can be focused. *)
Fixpoint first_focusable (org : string) (clientList : list Client) : option Client :=
  match clientList with
  | [] => None
  | client :: rest =>
      if includes (client_url client) org && has_focus client
      then Some client
      else first_focusable org rest
  end.

(** The notificationclick listener on [event.action]: [None] when it
    returns without calling [event.waitUntil], otherwise what the promise
    given to it settles to. *)
Definition handle_notificationclick (np : NotificationPlatform) (action : string)
  (d : Desk) : option (Settled unit) * Desk :=
  let d1 := desk_log ("通知クリック: " ++ action) d in
  let d2 := mkDesk (world d1) (S (close_calls d1)) (focus_calls d1)
              (openWindow_calls d1) (showNotification_calls d1) in
  if action =? "close" then (None, d2)
  else
    match matchAll np with
    | Rejected e => (Some (Rejected e), d2)
    | Fulfilled clientList =>
        match first_focusable (origin np) clientList with
        | Some client =>
            let d3 := desk_log "既存のタブをフォーカス" d2 in
            (Some (settle (focus_failure client)),
             mkDesk (world d3) (close_calls d3)
               (focus_calls d3 ++ [client_url client])%list
               (openWindow_calls d3) (showNotification_calls d3))
        | None =>
            if openWindow_defined np
            then
              let d3 := desk_log "新しいウィンドウを開く" d2 in
              (Some (settle (openWindow_failure np)),
               mkDesk (world d3) (close_calls d3) (focus_calls d3)
                 (openWindow_calls d3 ++ ["/"])%list (showNotification_calls d3))
            else (Some (Fulfilled tt), d2)
        end
    end.

(** [data.key] on a parsed payload: [None] is [undefined]. *)
Definition member (key : string) (data : Json) : Completion (option Json) :=
  match data with
  | json_null =>
      Throw (TypeError ("Cannot read properties of null (reading '" ++ key ++ "')"))
  | json_object members =>
      Normal (option_map snd (find (fun p => fst p =? key) members))
  | _ => Normal None
  end.

Definition json_truthy (v : Json) : bool :=
  match v with
  | json_null => false
  | json_bool b => b
  | json_number n => negb (n =? 0)%Z
  | json_string s => negb (s =? "")
  | json_array _ | json_object _ => true
  end.

(** [v || fallback] *)
Definition or_else (v : option Json) (fallback : Json) : Json :=
  match v with
  | Some x => if json_truthy x then x else fallback
  | None => fallback
  end.

(** The variables [title], [body] and [icon] of the push listener. *)
Record PushVariables : Type := mkPushVariables
  { var_title : Json;
    var_body : Json;
    var_icon : Json }.

(** The [catch] block of the push listener, entered with the variables as
    the [try] block left them. *)
Definition push_catch (data : PushMessageData) (printed : string)
  (vars : PushVariables) (d : Desk) : PushVariables * Desk :=
  let d1 := desk_log ("プッシュデータ解析エラー: " ++ printed) d in
  (mkPushVariables (var_title vars)
     (or_else (Some (json_string (text data))) (var_body vars))
     (var_icon vars),
   d1).

(** The [if (event.data) { try ... catch ... }] statement. *)
Definition push_read (np : NotificationPlatform) (event_data : option PushMessageData)
  (vars : PushVariables) (d : Desk) : PushVariables * Desk :=
  match event_data with
  | None => (vars, d)
  | Some pmd =>
      match json pmd with
      | syntax_error printed => push_catch pmd printed vars d
      | parsed data =>
          match member "title" data with
          | Throw e => push_catch pmd (error_to_string e) vars d
          | Normal t =>
              let vars1 :=
                mkPushVariables (or_else t (var_title vars)) (var_body vars)
                  (var_icon vars) in
              match member "body" data with
              | Throw e => push_catch pmd (error_to_string e) vars1 d
              | Normal b =>
                  let vars2 :=
                    mkPushVariables (var_title vars1) (or_else b (var_body vars1))
                      (var_icon vars1) in
                  match member "icon" data with
                  | Throw e => push_catch pmd (error_to_string e) vars2 d
                  | Normal i =>
                      (mkPushVariables (var_title vars2) (var_body vars2)
                         (or_else i (var_icon vars2)),
                       desk_log ("プッシュデータ: " ++ JSON_stringify np data) d)
                  end
              end
          end
      end
  end.

Definition default_variables : PushVariables :=
  mkPushVariables (json_string "PWAテスト") (json_string "プッシュ通知のテストです")
    (json_string "/icons/icon-192x192.png").

Definition push_options (np : NotificationPlatform) (vars : PushVariables)
  : NotificationOptions :=
  mkNotificationOptions (var_body vars) (var_icon vars) "/icons/icon-72x72.png"
    [200; 100; 200] (Date_now np) 1
    [ ("open", "開く", "/icons/icon-192x192.png");
      ("close", "閉じる", "/icons/icon-192x192.png") ].

(** The push listener on [event.data] ([None] is [null]): what the promise
    given to [event.waitUntil] settles to. *)
Definition handle_push (np : NotificationPlatform)
  (event_data : option PushMessageData) (d : Desk) : Settled unit * Desk :=
  let d1 := desk_log "プッシュ通知を受信" d in
  let (vars, d2) := push_read np event_data default_variables d1 in
  let options := push_options np vars in
  let d3 :=
    mkDesk (world d2) (close_calls d2) (focus_calls d2) (openWindow_calls d2)
      (showNotification_calls d2 ++ [(var_title vars, options)])%list in
  match showNotification_failure np with
  | None => (Fulfilled tt, desk_log "通知表示完了" d3)
  | Some e => (Fulfilled tt, desk_log ("通知表示エラー: " ++ error_to_string e) d3)
  end.

(** Sample inputs for the notification listeners. *)
Definition fresh_desk : Desk := mkDesk fresh_world 0 [] [] [].

Definition app_origin : string := "https://pwa.example".

Definition quiet_platform (clientList : list Client) : NotificationPlatform :=
  mkNotificationPlatform (Fulfilled clientList) app_origin true None None
    (fun _ => "{...}") 1700000000000%Z.

Definition foreign_tab : Client := mkClient "https://other.example/" true None.
Definition app_tab : Client := mkClient "https://pwa.example/index.html" true None.
Definition second_app_tab : Client := mkClient "https://pwa.example/about.html" true None.

(** * Properties *)

(** ** Storage lemmas *)

Lemma find_filter_none {A : Type} (f : A -> bool) (l : list A) :
  find f (filter (fun x => negb (f x)) l) = None.
Proof.
  induction l as [|x l IH]; simpl; [reflexivity|].
  destruct (f x) eqn:E; simpl; [exact IH|].
  rewrite E. exact IH.
Qed.

Lemma find_app_none {A : Type} (f : A -> bool) (l l' : list A) :
  find f l = None -> find f (l ++ l') = find f l'.
Proof.
  induction l as [|x l IH]; simpl; [reflexivity|].
  destruct (f x); [discriminate|exact IH].
Qed.

Lemma cache_match_put_same (u : string) (r : Response) (c : Cache) :
  cache_match u (cache_put u r c) = Some r.
Proof.
  unfold cache_match, cache_put.
  rewrite find_app_none.
  - simpl. rewrite String.eqb_refl. reflexivity.
  - apply (find_filter_none (fun p : string * Response => fst p =? u)).
Qed.

Lemma storage_has_find (name : string) (cs : CacheStorage) :
  storage_has name cs = true <-> exists c, storage_get name cs = Some c.
Proof.
  unfold storage_has, storage_get.
  induction cs as [|[n c] cs IH]; simpl.
  - split; [discriminate|intros [c H]; discriminate].
  - destruct (n =? name); simpl.
    + split; [intros _; exists c; reflexivity|reflexivity].
    + exact IH.
Qed.

Lemma storage_get_open (name : string) (cs : CacheStorage) :
  storage_get name (storage_open name cs)
  = Some (match storage_get name cs with Some c => c | None => [] end).
Proof.
  unfold storage_open.
  destruct (storage_has name cs) eqn:E.
  - apply storage_has_find in E. destruct E as [c E]. rewrite E. reflexivity.
  - assert (N : storage_get name cs = None).
    { destruct (storage_get name cs) eqn:G; [|reflexivity].
      assert (T : storage_has name cs = true) by (apply storage_has_find; eauto).
      congruence. }
    rewrite N. unfold storage_get in *.
    destruct (find (fun p => fst p =? name) cs) eqn:F; [discriminate|].
    rewrite find_app_none by exact F.
    simpl. rewrite String.eqb_refl. reflexivity.
Qed.

Lemma storage_get_update (name : string) (f : Cache -> Cache) (cs : CacheStorage) :
  storage_get name (storage_update name f cs) = option_map f (storage_get name cs).
Proof.
  unfold storage_get, storage_update.
  induction cs as [|[n c] cs IH]; simpl; [reflexivity|].
  destruct (n =? name) eqn:E; simpl; rewrite E; [reflexivity|exact IH].
Qed.

Lemma storage_match_open (name u : string) (cs : CacheStorage) :
  storage_match u (storage_open name cs) = storage_match u cs.
Proof.
  unfold storage_open. destruct (storage_has name cs); [reflexivity|].
  induction cs as [|[n c] cs IH]; simpl; [reflexivity|].
  destruct (cache_match u c); [reflexivity|exact IH].
Qed.

(** Writing [u] into the namespace [name] of a storage that holds [u]
    nowhere makes the written response the one [caches.match] finds. *)
Lemma storage_match_update_miss (name u : string) (r : Response) (cs : CacheStorage) :
  storage_match u cs = None ->
  storage_has name cs = true ->
  storage_match u (storage_update name (cache_put u r) cs) = Some r.
Proof.
  unfold storage_has, storage_update.
  induction cs as [|[n c] cs IH]; simpl; [discriminate|].
  destruct (cache_match u c) eqn:M; [discriminate|].
  intros Hm Hh. destruct (n =? name) eqn:E; simpl.
  - rewrite cache_match_put_same. reflexivity.
  - rewrite M. apply IH; assumption.
Qed.

Lemma storage_has_open (name : string) (cs : CacheStorage) :
  storage_has name (storage_open name cs) = true.
Proof.
  apply storage_has_find. rewrite storage_get_open. eauto.
Qed.

Lemma namespace_lookup_found (name u : string) (cs : CacheStorage) (entry : Response) :
  namespace_lookup name u cs = Some entry ->
  exists found, storage_match u cs = Some found.
Proof.
  unfold namespace_lookup, storage_get.
  induction cs as [|[n c] cs IH]; simpl; [discriminate|].
  destruct (n =? name); simpl.
  - intros H. rewrite H. eauto.
  - intros H. destruct (cache_match u c); eauto.
Qed.

Lemma namespace_lookup_first (name u : string) (cs : CacheStorage) (entry : Response) :
  namespace_lookup name u cs = Some entry ->
  (forall n c, In (n, c) cs -> n <> name -> cache_match u c = None) ->
  storage_match u cs = Some entry.
Proof.
  unfold namespace_lookup, storage_get.
  induction cs as [|[n c] cs IH]; simpl; [discriminate|].
  destruct (n =? name) eqn:E; simpl.
  - intros H _. rewrite H. reflexivity.
  - intros H O. rewrite (O n c).
    + apply IH; [exact H|]. intros n' c' I. apply O. right. exact I.
    + left. reflexivity.
    + intros ->. rewrite String.eqb_refl in E. discriminate.
Qed.

(** ** The fetch listener *)

Section Fetch.

Variable pf : Platform.
Variable request : Request.
Variable w : World.

Lemma handle_fetch_GET :
  method request = "GET" ->
  handle_fetch pf request w
  = (Some (fst (respond pf request w)), snd (respond pf request w)).
Proof.
  intros G. unfold handle_fetch. rewrite G. simpl.
  destruct (respond pf request w). reflexivity.
Qed.

Lemma handle_fetch_not_GET :
  method request <> "GET" -> handle_fetch pf request w = (None, w).
Proof.
  intros G. unfold handle_fetch.
  destruct (method request =? "GET") eqn:E; [|reflexivity].
  apply String.eqb_eq in E. contradiction.
Qed.

(** Cache hit. *)
Lemma respond_hit (cached : Response) :
  storage_match (url request) (caches w) = Some cached ->
  respond pf request w
  = (Fulfilled (Some cached),
     snd (log ("キャッシュからレスポンス: " ++ url request) w)).
Proof.
  intros H. unfold respond, catch_, then_, caches_match. rewrite H. reflexivity.
Qed.

(** Cache miss, network answer that is not cached. *)
Lemma respond_network_uncached (response : Response) :
  storage_match (url request) (caches w) = None ->
  transport pf request = Fulfilled response ->
  status response <> 200 \/ type response <> basic ->
  respond pf request w
  = (Fulfilled (Some response),
     snd (fetch pf request (snd (log ("ネットワークから取得: " ++ url request) w)))).
Proof.
  intros M T B. unfold respond, catch_, then_, caches_match. rewrite M. simpl.
  rewrite T.
  destruct B as [B|B].
  - apply Nat.eqb_neq in B. rewrite B. reflexivity.
  - destruct (type response); try contradiction;
      rewrite orb_true_r; reflexivity.
Qed.

(** Cache miss, ordinary network answer: returned, and written unless the
    store refuses the write. *)
Lemma respond_network_cached (response : Response) :
  storage_match (url request) (caches w) = None ->
  transport pf request = Fulfilled response ->
  status response = 200 ->
  type response = basic ->
  fst (respond pf request w) = Fulfilled (Some response) /\
  caches (snd (respond pf request w))
  = match put_failure pf request (clone response) with
    | None =>
        storage_update CACHE_NAME (cache_put (url request) (clone response))
          (storage_open CACHE_NAME (caches w))
    | Some _ => storage_open CACHE_NAME (caches w)
    end.
Proof.
  intros M T S B. unfold respond, catch_, then_, caches_match. rewrite M. simpl.
  rewrite T, S, B. simpl. unfold cache_put_. simpl.
  destruct (put_failure pf request (clone response)); split; reflexivity.
Qed.

(** Cache miss and network failure. *)
Lemma respond_offline (err : JsError) :
  storage_match (url request) (caches w) = None ->
  transport pf request = Rejected err ->
  fst (respond pf request w)
  = Fulfilled (if destination request =? "document"
               then storage_match OFFLINE_URL (caches w)
               else Some offline_response) /\
  caches (snd (respond pf request w)) = caches w.
Proof.
  intros M T. unfold respond, catch_, then_, caches_match. rewrite M. simpl.
  rewrite T. simpl.
  destruct (destination request =? "document"); split; reflexivity.
Qed.

(** The promise given to [event.respondWith] never rejects. *)
Lemma respond_fulfils : exists v, fst (respond pf request w) = Fulfilled v.
Proof.
  destruct (storage_match (url request) (caches w)) as [cached|] eqn:M.
  - rewrite (respond_hit cached M). simpl. eauto.
  - destruct (transport pf request) as [response|err] eqn:T.
    + destruct (Nat.eq_dec (status response) 200) as [S|S].
      * destruct (type response) eqn:B;
          try (rewrite (respond_network_uncached response M T);
               [simpl; eexists; reflexivity|right; congruence]).
        destruct (respond_network_cached response M T S B) as [R _].
        rewrite R. eauto.
      * rewrite (respond_network_uncached response M T);
          [simpl; eexists; reflexivity|left; exact S].
    + destruct (respond_offline err M T) as [R _]. rewrite R. eauto.
Qed.

(** [undefined] is given to [event.respondWith] only for a navigation that
    misses the cache, fails on the network and finds no offline page. *)
Lemma respond_undefined_only_without_offline_page :
  fst (respond pf request w) = Fulfilled None ->
  storage_match (url request) (caches w) = None /\
  (exists err, transport pf request = Rejected err) /\
  destination request = "document" /\
  storage_match OFFLINE_URL (caches w) = None.
Proof.
  destruct (storage_match (url request) (caches w)) as [cached|] eqn:M.
  - rewrite (respond_hit cached M). discriminate.
  - destruct (transport pf request) as [response|err] eqn:T.
    + destruct (Nat.eq_dec (status response) 200) as [S|S].
      * destruct (type response) eqn:B;
          try (rewrite (respond_network_uncached response M T);
               [discriminate|right; congruence]).
        destruct (respond_network_cached response M T S B) as [R _].
        rewrite R. discriminate.
      * rewrite (respond_network_uncached response M T); [discriminate|left; exact S].
    + destruct (respond_offline err M T) as [R _]. rewrite R.
      destruct (destination request =? "document") eqn:D; [|discriminate].
      apply String.eqb_eq in D. intros H. injection H as H.
      repeat split; eauto.
Qed.

End Fetch.

(** C2, at the input on which the fetch listener does not do what the claim
    says: for a GET navigation that misses the cache and fails on the
    network while no offline page is stored, the promise given to
    [event.respondWith] fulfils with [undefined], not with a response. *)
Theorem fetch_offline_page_missing
  (pf : Platform) (request : Request) (w : World) (err : JsError) :
  method request = "GET" ->
  storage_match (url request) (caches w) = None ->
  transport pf request = Rejected err ->
  destination request = "document" ->
  storage_match OFFLINE_URL (caches w) = None ->
  fst (handle_fetch pf request w) = Some (Fulfilled None).
Proof.
  intros G M T D O. rewrite handle_fetch_GET by exact G. simpl.
  destruct (respond_offline pf request w err M T) as [R _].
  rewrite R, D, O. reflexivity.
Qed.

Lemma fetch_offline_page_missing_witness :
  fst (handle_fetch offline_platform navigation fresh_world) = Some (Fulfilled None).
Proof.
  apply (fetch_offline_page_missing offline_platform navigation fresh_world
           (TypeError "Failed to fetch")); reflexivity.
Defined.

(** C3, as stated, fails when an older namespace holds the same identity:
    the current namespace stores the new index page, the listener answers
    with the old one. *)
Lemma cache_hit_answers_from_older_namespace :
  method index_request = "GET" /\
  namespace_lookup CACHE_NAME (url index_request) (caches two_generations)
  = Some (page "new index") /\
  fst (handle_fetch offline_platform index_request two_generations)
  = Some (Fulfilled (Some (page "old index"))) /\
  page "old index" <> page "new index".
Proof.
  repeat split; try reflexivity. discriminate.
Qed.

(** C3, amended: for a GET request whose identity has an entry in the
    current namespace, the listener answers with the entry [caches.match]
    finds, that of the earliest created namespace holding the identity; it
    is the current namespace's entry when no namespace of another name holds
    the identity.  The network is not used and the storage is unchanged. *)
Theorem fetch_cache_hit
  (pf : Platform) (request : Request) (w : World) (entry : Response) :
  method request = "GET" ->
  namespace_lookup CACHE_NAME (url request) (caches w) = Some entry ->
  exists found,
    storage_match (url request) (caches w) = Some found /\
    fst (handle_fetch pf request w) = Some (Fulfilled (Some found)) /\
    network (snd (handle_fetch pf request w)) = network w /\
    caches (snd (handle_fetch pf request w)) = caches w /\
    ((forall n c, In (n, c) (caches w) -> n <> CACHE_NAME ->
                  cache_match (url request) c = None) ->
     found = entry).
Proof.
  intros G L.
  destruct (namespace_lookup_found _ _ _ _ L) as [found F].
  exists found. rewrite handle_fetch_GET by exact G.
  rewrite (respond_hit pf request w found F). simpl.
  repeat split; try reflexivity; try exact F.
  intros O. pose proof (namespace_lookup_first _ _ _ _ L O) as E. congruence.
Qed.

Lemma fetch_cache_hit_witness :
  exists found,
    storage_match "/index.html" (caches installed_world) = Some found /\
    fst (handle_fetch offline_platform index_request installed_world)
    = Some (Fulfilled (Some found)) /\
    network (snd (handle_fetch offline_platform index_request installed_world))
    = network installed_world /\
    caches (snd (handle_fetch offline_platform index_request installed_world))
    = caches installed_world /\
    ((forall n c, In (n, c) (caches installed_world) -> n <> CACHE_NAME ->
                  cache_match "/index.html" c = None) ->
     found = page "/index.html").
Proof.
  apply (fetch_cache_hit offline_platform index_request installed_world
           (page "/index.html")); reflexivity.
Defined.

(** C5: a GET navigation whose identity is absent from the cache and whose
    network call fails is answered with the stored [/offline.html] entry;
    nothing is written to the storage. *)
Theorem fetch_offline_fallback
  (pf : Platform) (request : Request) (w : World) (err : JsError)
  (offline_page : Response) :
  method request = "GET" ->
  storage_match (url request) (caches w) = None ->
  transport pf request = Rejected err ->
  destination request = "document" ->
  storage_match OFFLINE_URL (caches w) = Some offline_page ->
  fst (handle_fetch pf request w) = Some (Fulfilled (Some offline_page)) /\
  caches (snd (handle_fetch pf request w)) = caches w.
Proof.
  intros G M T D O. rewrite handle_fetch_GET by exact G. simpl.
  destruct (respond_offline pf request w err M T) as [R C].
  rewrite R, D, O. split; [reflexivity|exact C].
Qed.

Lemma fetch_offline_fallback_witness :
  namespace_lookup CACHE_NAME OFFLINE_URL (caches installed_world)
  = Some (page "/offline.html") /\
  fst (handle_fetch offline_platform navigation installed_world)
  = Some (Fulfilled (Some (page "/offline.html"))) /\
  caches (snd (handle_fetch offline_platform navigation installed_world))
  = caches installed_world.
Proof.
  split; [reflexivity|].
  apply (fetch_offline_fallback offline_platform navigation installed_world
           (TypeError "Failed to fetch") (page "/offline.html")); reflexivity.
Defined.

(** C6: a GET request that is not a navigation, whose identity is absent
    from the cache and whose network call fails, is answered with a
    synthetic response of status 408: the promise fulfils, it does not
    reject. *)
Theorem fetch_failure_substitute
  (pf : Platform) (request : Request) (w : World) (err : JsError) :
  method request = "GET" ->
  storage_match (url request) (caches w) = None ->
  transport pf request = Rejected err ->
  destination request <> "document" ->
  exists substitute,
    fst (handle_fetch pf request w) = Some (Fulfilled (Some substitute)) /\
    status substitute = 408 /\
    statusText substitute = "Offline".
Proof.
  intros G M T D. exists offline_response.
  rewrite handle_fetch_GET by exact G. simpl.
  destruct (respond_offline pf request w err M T) as [R _]. rewrite R.
  apply String.eqb_neq in D. rewrite D. repeat split.
Qed.

Lemma fetch_failure_substitute_witness :
  exists substitute,
    fst (handle_fetch offline_platform stylesheet installed_world)
    = Some (Fulfilled (Some substitute)) /\
    status substitute = 408 /\
    statusText substitute = "Offline".
Proof.
  apply (fetch_failure_substitute offline_platform stylesheet installed_world
           (TypeError "Failed to fetch")); try reflexivity.
  discriminate.
Defined.

(** C7: for a GET request that misses the cache, a network response whose
    status is not 200 or whose type is not basic is returned to the caller
    and the cache storage is left exactly as it was. *)
Theorem fetch_no_poisoning
  (pf : Platform) (request : Request) (w : World) (response : Response) :
  method request = "GET" ->
  storage_match (url request) (caches w) = None ->
  transport pf request = Fulfilled response ->
  status response <> 200 \/ type response <> basic ->
  fst (handle_fetch pf request w) = Some (Fulfilled (Some response)) /\
  caches (snd (handle_fetch pf request w)) = caches w /\
  storage_match (url request) (caches (snd (handle_fetch pf request w))) = None.
Proof.
  intros G M T B. rewrite handle_fetch_GET by exact G.
  rewrite (respond_network_uncached pf request w response M T B). simpl.
  repeat split. exact M.
Qed.

Lemma fetch_no_poisoning_witness :
  fst (handle_fetch not_found_platform stylesheet installed_world)
  = Some (Fulfilled (Some (mkResponse 404 "Not Found" basic ""))) /\
  caches (snd (handle_fetch not_found_platform stylesheet installed_world))
  = caches installed_world /\
  storage_match (url stylesheet)
    (caches (snd (handle_fetch not_found_platform stylesheet installed_world)))
  = None.
Proof.
  apply (fetch_no_poisoning not_found_platform stylesheet installed_world
           (mkResponse 404 "Not Found" basic "")); try reflexivity.
  left. simpl. lia.
Defined.

(** C8, as stated, fails when the cache store refuses the write: the
    server answers a GET request that is not cached with a basic response
    of status 200, the response is returned to the caller, and a lookup of
    the same identity afterwards finds nothing, in the current namespace or
    anywhere else. *)
Lemma fetch_miss_not_stored_when_put_refused :
  method stylesheet = "GET" /\
  storage_match (url stylesheet) (caches installed_world) = None /\
  transport vary_platform stylesheet = Fulfilled (page "/css/extra.css") /\
  status (page "/css/extra.css") = 200 /\
  type (page "/css/extra.css") = basic /\
  fst (handle_fetch vary_platform stylesheet installed_world)
  = Some (Fulfilled (Some (page "/css/extra.css"))) /\
  namespace_lookup CACHE_NAME (url stylesheet)
    (caches (snd (handle_fetch vary_platform stylesheet installed_world)))
  = None /\
  storage_match (url stylesheet)
    (caches (snd (handle_fetch vary_platform stylesheet installed_world)))
  = None.
Proof.
  repeat split; reflexivity.
Qed.

(** C8, amended: for a GET request with no cache entry whose network call
    gives a basic response of status 200, that response is returned to the
    caller, and, provided the cache store accepts the write ([cache.put]
    does not reject), a lookup of the same identity in the current
    namespace afterwards finds a stored entry of the same status, which is
    also what [caches.match] finds. *)
Theorem fetch_miss_populates
  (pf : Platform) (request : Request) (w : World) (response : Response) :
  method request = "GET" ->
  storage_match (url request) (caches w) = None ->
  transport pf request = Fulfilled response ->
  status response = 200 ->
  type response = basic ->
  fst (handle_fetch pf request w) = Some (Fulfilled (Some response)) /\
  (put_failure pf request (clone response) = None ->
   exists stored,
     namespace_lookup CACHE_NAME (url request)
       (caches (snd (handle_fetch pf request w)))
     = Some stored /\
     status stored = status response /\
     storage_match (url request) (caches (snd (handle_fetch pf request w)))
     = Some stored).
Proof.
  intros G M T S B. rewrite handle_fetch_GET by exact G. simpl.
  destruct (respond_network_cached pf request w response M T S B) as [R C].
  rewrite R. split; [reflexivity|].
  intros P. rewrite C, P.
  exists (clone response). repeat split.
  - unfold namespace_lookup.
    rewrite storage_get_update, storage_get_open. simpl.
    apply cache_match_put_same.
  - apply storage_match_update_miss.
    + rewrite storage_match_open. exact M.
    + apply storage_has_open.
Qed.

Lemma fetch_miss_populates_witness :
  fst (handle_fetch online_platform stylesheet installed_world)
  = Some (Fulfilled (Some (page "/css/extra.css"))) /\
  exists stored,
    namespace_lookup CACHE_NAME (url stylesheet)
      (caches (snd (handle_fetch online_platform stylesheet installed_world)))
    = Some stored /\
    status stored = status (page "/css/extra.css") /\
    storage_match (url stylesheet)
      (caches (snd (handle_fetch online_platform stylesheet installed_world)))
    = Some stored.
Proof.
  destruct (fetch_miss_populates online_platform stylesheet installed_world
              (page "/css/extra.css")) as [A B]; try reflexivity.
  split; [exact A|]. apply B. reflexivity.
Defined.

(** ** The install listener *)

Lemma all_settled_rejects {A B : Type} (f : A -> Settled B) (l : list A)
  (x : A) (e : JsError) :
  In x l -> f x = Rejected e ->
  exists reason, all_settled (map f l) = Rejected reason.
Proof.
  induction l as [|y l IH]; simpl; [contradiction|].
  intros [->|I] R.
  - rewrite R. eauto.
  - destruct (f y); [|eauto].
    destruct (IH I R) as [reason E]. rewrite E. eauto.
Qed.

Lemma addAll_fetch_run (pf : Platform) (path : string) (w : World) :
  addAll_fetch pf path w
  = (addAll_outcome pf path,
     mkWorld (caches w) (console w) (network w ++ [request_of_path path])%list
       (skipWaiting_calls w) (claim_calls w)).
Proof.
  unfold addAll_fetch, addAll_outcome, then_, fetch.
  destruct (transport pf (request_of_path path)) as [r|e]; [|reflexivity].
  destruct (addAll_accepts r); reflexivity.
Qed.

(** The fetches [cache.addAll] starts, one per path, touch nothing but the
    network trace; which of them count as sent when the batch is refused
    is decided in [cache_addAll]. *)
Lemma addAll_fetches_run (pf : Platform) (paths : list string) (w : World) :
  array_map (addAll_fetch pf) paths w
  = (map (addAll_outcome pf) paths,
     mkWorld (caches w) (console w) (network w ++ map request_of_path paths)%list
       (skipWaiting_calls w) (claim_calls w)).
Proof.
  revert w. induction paths as [|p paths IH]; intros w; simpl.
  - rewrite app_nil_r. destruct w; reflexivity.
  - rewrite addAll_fetch_run, IH. simpl.
    rewrite <- app_assoc. reflexivity.
Qed.

Lemma install_failure_run (pf : Platform) (w : World) (reason : JsError) :
  all_settled (map (addAll_outcome pf) CACHE_RESOURCES) = Rejected reason ->
  handle_install pf w
  = (Fulfilled tt,
     mkWorld (storage_open CACHE_NAME (caches w))
       (console w
        ++ [ "[Service Worker] Service Worker インストール中...";
             "[Service Worker] キャッシュを開いて必要なリソースを追加中...";
             ("[Service Worker] キャッシュエラー: " ++ error_to_string reason)%string ])%list
       (network w
        ++ filter (fun rq => negb (addAll_aborted pf rq))
             (map request_of_path CACHE_RESOURCES))%list
       (skipWaiting_calls w) (claim_calls w)).
Proof.
  intros R.
  unfold handle_install, catch_, then_, cache_addAll, caches_open, log, console_log.
  cbn [set_console set_caches caches console network skipWaiting_calls claim_calls].
  rewrite addAll_fetches_run, R.
  cbn [set_console set_caches caches console network skipWaiting_calls claim_calls].
  repeat rewrite <- app_assoc. reflexivity.
Qed.

(** C1, as stated, fails: with no network every manifest fetch fails, and
    the promise the install listener gives to [event.waitUntil] fulfils, so
    the driver is told the install succeeded. *)
Lemma install_fulfils_although_fetches_fail :
  In "/index.html" CACHE_RESOURCES /\
  transport offline_platform (request_of_path "/index.html")
  = Rejected (TypeError "Failed to fetch") /\
  fst (handle_install offline_platform fresh_world) = Fulfilled tt /\
  caches (snd (handle_install offline_platform fresh_world)) = [(CACHE_NAME, [])].
Proof.
  repeat split; try reflexivity. simpl. tauto.
Qed.

(** C1, amended: if fetching any path of the manifest fails during
    pre-population, no entry is committed (the current namespace is left
    as it was, created empty when it did not exist, and the other
    namespaces are untouched), the error is logged and [skipWaiting] is not
    called; the promise given to [event.waitUntil] nevertheless fulfils, so
    no failure is reported to the driver. *)
Theorem install_manifest_fetch_failure
  (pf : Platform) (w : World) (path : string) (err : JsError) :
  In path CACHE_RESOURCES ->
  transport pf (request_of_path path) = Rejected err ->
  fst (handle_install pf w) = Fulfilled tt /\
  caches (snd (handle_install pf w)) = storage_open CACHE_NAME (caches w) /\
  (forall u, namespace_lookup CACHE_NAME u (caches (snd (handle_install pf w)))
             = namespace_lookup CACHE_NAME u (caches w)) /\
  skipWaiting_calls (snd (handle_install pf w)) = skipWaiting_calls w /\
  exists reason,
    last (console (snd (handle_install pf w))) ""
    = "[Service Worker] キャッシュエラー: " ++ error_to_string reason.
Proof.
  intros I T.
  assert (O : addAll_outcome pf path = Rejected err).
  { unfold addAll_outcome. rewrite T. reflexivity. }
  destruct (all_settled_rejects (addAll_outcome pf) _ _ _ I O) as [reason R].
  rewrite (install_failure_run pf w reason R).
  cbn [fst snd caches skipWaiting_calls console].
  repeat split.
  - intros u. unfold namespace_lookup. rewrite storage_get_open.
    destruct (storage_get CACHE_NAME (caches w)); reflexivity.
  - exists reason.
    change [ "[Service Worker] Service Worker インストール中...";
             "[Service Worker] キャッシュを開いて必要なリソースを追加中...";
             ("[Service Worker] キャッシュエラー: " ++ error_to_string reason)%string ]
      with ([ "[Service Worker] Service Worker インストール中...";
              "[Service Worker] キャッシュを開いて必要なリソースを追加中..." ]
            ++ [ ("[Service Worker] キャッシュエラー: " ++ error_to_string reason)%string ])%list.
    rewrite app_assoc. apply last_last.
Qed.

Lemma install_manifest_fetch_failure_witness :
  fst (handle_install offline_platform two_generations) = Fulfilled tt /\
  caches (snd (handle_install offline_platform two_generations))
  = storage_open CACHE_NAME (caches two_generations) /\
  (forall u,
     namespace_lookup CACHE_NAME u
       (caches (snd (handle_install offline_platform two_generations)))
     = namespace_lookup CACHE_NAME u (caches two_generations)) /\
  skipWaiting_calls (snd (handle_install offline_platform two_generations))
  = skipWaiting_calls two_generations /\
  exists reason,
    last (console (snd (handle_install offline_platform two_generations))) ""
    = "[Service Worker] キャッシュエラー: " ++ error_to_string reason.
Proof.
  apply (install_manifest_fetch_failure offline_platform two_generations
           "/offline.html" (TypeError "Failed to fetch")).
  - simpl. tauto.
  - reflexivity.
Defined.

(** ** The activate listener *)

#[local] Arguments String.append : simpl never.

Lemma filter_filter_and {A : Type} (f g : A -> bool) (l : list A) :
  filter f (filter g l) = filter (fun x => g x && f x) l.
Proof.
  induction l as [|x l IH]; simpl; [reflexivity|].
  destruct (g x); simpl; [|exact IH].
  destruct (f x); rewrite IH; reflexivity.
Qed.

Lemma filter_all {A : Type} (l : list A) : filter (fun _ => true) l = l.
Proof.
  induction l as [|x l IH]; simpl; [reflexivity|]. rewrite IH. reflexivity.
Qed.

Lemma find_filter_implied {A : Type} (f g : A -> bool) (l : list A) :
  (forall x, f x = true -> g x = true) ->
  find f (filter g l) = find f l.
Proof.
  intros H. induction l as [|x l IH]; simpl; [reflexivity|].
  destruct (f x) eqn:F.
  - rewrite (H x F). simpl. rewrite F. reflexivity.
  - destruct (g x); simpl; [rewrite F|]; exact IH.
Qed.

(** One deletion started by the activate listener. *)
Lemma deletion_run (pf : Platform) (n : string) (w : World) :
  (log ("古いキャッシュを削除: " ++ n) ;; caches_delete pf n) w
  = match delete_failure pf n with
    | Some e =>
        (Rejected e,
         mkWorld (caches w) (console w ++ [deletion_line n])%list
           (network w) (skipWaiting_calls w) (claim_calls w))
    | None =>
        (Fulfilled (storage_has n (caches w)),
         mkWorld (storage_delete n (caches w)) (console w ++ [deletion_line n])%list
           (network w) (skipWaiting_calls w) (claim_calls w))
    end.
Proof.
  unfold then_, log, console_log, caches_delete, deletion_line.
  cbn [set_console set_caches caches console network skipWaiting_calls claim_calls].
  destruct (delete_failure pf n); reflexivity.
Qed.

(** The deletions started by the activate listener: every one of them runs
    and logs its line, whatever the others do. *)
Lemma deletions_run (pf : Platform) (names : list string) (w : World) :
  snd (array_map
         (fun cacheName =>
            log ("古いキャッシュを削除: " ++ cacheName) ;; caches_delete pf cacheName)
         names w)
  = mkWorld (filter (survives pf names) (caches w))
      (console w ++ map deletion_line names)%list
      (network w) (skipWaiting_calls w) (claim_calls w) /\
  is_fulfilled
    (all_settled
       (fst (array_map
               (fun cacheName =>
                  log ("古いキャッシュを削除: " ++ cacheName) ;; caches_delete pf cacheName)
               names w)))
  = forallb (deletes_cleanly pf) names.
Proof.
  revert w. induction names as [|n names IH]; intros w.
  - cbn [array_map fst snd map forallb all_settled is_fulfilled].
    split; [|reflexivity].
    rewrite app_nil_r. unfold survives. cbn [existsb negb].
    rewrite filter_all. destruct w; reflexivity.
  - cbn [array_map]. rewrite deletion_run.
    cbn [forallb]. unfold deletes_cleanly at 1.
    destruct (delete_failure pf n) as [e|] eqn:D.
    + match goal with
      | |- context [array_map ?f names ?w1] =>
          specialize (IH w1); destruct (array_map f names w1) as [os w2]
      end.
      cbn [fst snd caches console network skipWaiting_calls claim_calls] in *.
      destruct IH as [IH1 IH2]. split; [|reflexivity].
      rewrite IH1. cbn [map]. rewrite <- app_assoc. cbn [app].
      f_equal. apply filter_ext. intros p. unfold survives. cbn [existsb].
      unfold deletes_cleanly. rewrite D. rewrite andb_false_r. reflexivity.
    + match goal with
      | |- context [array_map ?f names ?w1] =>
          specialize (IH w1); destruct (array_map f names w1) as [os w2]
      end.
      cbn [fst snd caches console network skipWaiting_calls claim_calls] in *.
      destruct IH as [IH1 IH2]. split.
      * rewrite IH1. cbn [map]. rewrite <- app_assoc. cbn [app].
        f_equal. unfold storage_delete. rewrite filter_filter_and.
        apply filter_ext. intros p. unfold survives. cbn [existsb].
        unfold deletes_cleanly. rewrite D. rewrite andb_true_r.
        rewrite negb_orb. reflexivity.
      * rewrite <- IH2. cbn [all_settled andb].
        destruct (all_settled os); reflexivity.
Qed.

(** The world the activate listener leaves, and what its promise settles
    to. *)
Lemma activate_run (pf : Platform) (w : World) :
  caches (snd (handle_activate pf w))
  = filter (survives pf (stale_names (caches w))) (caches w) /\
  is_fulfilled (fst (handle_activate pf w))
  = forallb (deletes_cleanly pf) (stale_names (caches w)) /\
  claim_calls (snd (handle_activate pf w))
  = (if forallb (deletes_cleanly pf) (stale_names (caches w))
     then S (claim_calls w) else claim_calls w) /\
  console (snd (handle_activate pf w))
  = (console w
     ++ "[Service Worker] Service Worker アクティベート中..."
        :: map deletion_line (stale_names (caches w))
     ++ (if forallb (deletes_cleanly pf) (stale_names (caches w))
         then ["[Service Worker] Service Worker アクティベート完了"] else []))%list.
Proof.
  assert (H : handle_activate pf w
              = let (os, w1) :=
                  array_map
                    (fun cacheName =>
                       log ("古いキャッシュを削除: " ++ cacheName) ;;
                       caches_delete pf cacheName)
                    (stale_names (caches w))
                    (snd (log "Service Worker アクティベート中..." w)) in
                match all_settled os with
                | Fulfilled _ =>
                    (log "Service Worker アクティベート完了" ;; clients_claim) w1
                | Rejected e => (Rejected e, w1)
                end).
  { unfold handle_activate, then_, caches_keys, Promise_all, stale_names.
    cbn [log console_log fst snd set_console caches].
    destruct (array_map _ _ _). reflexivity. }
  rewrite H. clear H.
  match goal with
  | |- context [array_map ?f ?l ?w1] =>
      destruct (deletions_run pf l w1) as [R1 R2];
      destruct (array_map f l w1) as [os w2]
  end.
  cbn [log console_log fst snd set_console caches console network
         skipWaiting_calls claim_calls] in R1, R2.
  subst w2. rewrite <- R2.
  destruct (all_settled os) as [l|e].
  - unfold then_, log, console_log, clients_claim.
    cbn [fst snd set_console caches console network skipWaiting_calls claim_calls
           is_fulfilled].
    repeat split. rewrite <- !app_assoc. reflexivity.
  - cbn [fst snd caches console network skipWaiting_calls claim_calls is_fulfilled].
    repeat split. rewrite <- !app_assoc. cbn [app]. rewrite app_nil_r. reflexivity.
Qed.

Lemma stale_names_spec (cs : CacheStorage) (n : string) :
  In n (stale_names cs) <-> In n (storage_keys cs) /\ n <> CACHE_NAME.
Proof.
  unfold stale_names. rewrite filter_In. rewrite negb_true_iff.
  rewrite String.eqb_neq. reflexivity.
Qed.

Lemma survives_current (pf : Platform) (cs : CacheStorage) (p : string * Cache) :
  fst p = CACHE_NAME -> survives pf (stale_names cs) p = true.
Proof.
  intros E. unfold survives. apply negb_true_iff.
  destruct (existsb _ (stale_names cs)) eqn:X; [|reflexivity].
  apply existsb_exists in X. destruct X as [n [I H]].
  apply andb_prop in H. destruct H as [H _].
  apply String.eqb_eq in H. apply stale_names_spec in I.
  destruct I as [_ N]. congruence.
Qed.

Lemma survives_false (pf : Platform) (names : list string) (p : string * Cache) :
  In (fst p) names -> delete_failure pf (fst p) = None ->
  survives pf names p = false.
Proof.
  intros I D. unfold survives. apply negb_false_iff.
  apply existsb_exists. exists (fst p). split; [exact I|].
  rewrite String.eqb_refl, D. reflexivity.
Qed.

Lemma survives_true (pf : Platform) (names : list string) (p : string * Cache) :
  delete_failure pf (fst p) <> None -> survives pf names p = true.
Proof.
  intros D. unfold survives. apply negb_true_iff.
  destruct (existsb _ names) eqn:X; [|reflexivity].
  apply existsb_exists in X. destruct X as [n [_ H]].
  apply andb_prop in H. destruct H as [H1 H2].
  apply String.eqb_eq in H1. subst n.
  destruct (delete_failure pf (fst p)); [discriminate|contradiction].
Qed.

(** A stale namespace whose own deletion goes through is gone after
    activate, whatever happens to the other deletions. *)
Lemma activate_deletes (pf : Platform) (w : World) (n : string) :
  n <> CACHE_NAME -> delete_failure pf n = None ->
  ~ In n (storage_keys (caches (snd (handle_activate pf w)))).
Proof.
  intros N D I.
  destruct (activate_run pf w) as [C _]. rewrite C in I.
  unfold storage_keys in I. apply in_map_iff in I.
  destruct I as [p [E I]]. apply filter_In in I. destruct I as [I S].
  rewrite survives_false in S; [discriminate| |rewrite E; exact D].
  apply stale_names_spec. split; [|rewrite E; exact N].
  unfold storage_keys. apply in_map. exact I.
Qed.

(** A namespace activate does not delete is left with its content. *)
Lemma activate_keeps (pf : Platform) (w : World) (n : string) (c : Cache) :
  In (n, c) (caches w) ->
  n = CACHE_NAME \/ delete_failure pf n <> None ->
  In (n, c) (caches (snd (handle_activate pf w))).
Proof.
  intros I K. destruct (activate_run pf w) as [C _]. rewrite C.
  apply filter_In. split; [exact I|].
  destruct K as [K|K].
  - apply survives_current. exact K.
  - apply survives_true. exact K.
Qed.

Lemma activate_current_namespace (pf : Platform) (w : World) :
  storage_get CACHE_NAME (caches (snd (handle_activate pf w)))
  = storage_get CACHE_NAME (caches w).
Proof.
  destruct (activate_run pf w) as [C _]. rewrite C.
  unfold storage_get. f_equal.
  apply find_filter_implied. intros p E.
  apply survives_current. apply String.eqb_eq. exact E.
Qed.

(** C4: once the activate operation has completed (the promise given to
    [event.waitUntil] has fulfilled), every existing cache namespace is
    named by the current version tag; the current namespace itself is kept
    with its content. *)
Theorem activate_version_isolation (pf : Platform) (w : World) :
  fst (handle_activate pf w) = Fulfilled tt ->
  (forall n, In n (storage_keys (caches (snd (handle_activate pf w)))) ->
             n = CACHE_NAME) /\
  storage_get CACHE_NAME (caches (snd (handle_activate pf w)))
  = storage_get CACHE_NAME (caches w).
Proof.
  intros F. split; [|apply activate_current_namespace].
  intros n I. destruct (string_dec n CACHE_NAME) as [E|N]; [exact E|].
  exfalso.
  destruct (activate_run pf w) as [C [A _]].
  rewrite F in A. cbn [is_fulfilled] in A. symmetry in A.
  rewrite forallb_forall in A.
  assert (S : In n (stale_names (caches w))).
  { apply stale_names_spec. split; [|exact N].
    rewrite C in I. unfold storage_keys in *. apply in_map_iff in I.
    destruct I as [p [E I]]. apply filter_In in I. destruct I as [I _].
    rewrite <- E. apply in_map. exact I. }
  specialize (A n S). unfold deletes_cleanly in A.
  destruct (delete_failure pf n) eqn:D; [discriminate|].
  exact (activate_deletes pf w n N D I).
Qed.

Lemma activate_version_isolation_witness :
  fst (handle_activate online_platform two_generations) = Fulfilled tt /\
  (forall n,
     In n (storage_keys (caches (snd (handle_activate online_platform two_generations)))) ->
     n = CACHE_NAME) /\
  storage_get CACHE_NAME (caches (snd (handle_activate online_platform two_generations)))
  = storage_get CACHE_NAME (caches two_generations).
Proof.
  split; [reflexivity|].
  apply (activate_version_isolation online_platform two_generations).
  reflexivity.
Defined.

(** C9, as stated, fails: when the deletion of [pwa-test-cache-v0] fails,
    the promise of the activate operation rejects, [clients.claim] is not
    called and the console holds the lines of a run without failure, minus
    the completion line: the failure is not logged.  The other stale
    namespace is deleted all the same. *)
Lemma activate_rejects_on_deletion_failure :
  fst (handle_activate stuck_platform two_generations)
  = Rejected (DOMException "UnknownError" "delete failed") /\
  claim_calls (snd (handle_activate stuck_platform two_generations)) = 0 /\
  console (snd (handle_activate stuck_platform two_generations))
  = [ "[Service Worker] Service Worker アクティベート中...";
      "[Service Worker] 古いキャッシュを削除: pwa-test-cache-v0";
      "[Service Worker] 古いキャッシュを削除: pwa-test-cache-beta" ] /\
  storage_keys (caches (snd (handle_activate stuck_platform two_generations)))
  = [ "pwa-test-cache-v0"; CACHE_NAME ].
Proof.
  repeat split; reflexivity.
Qed.

(** C9, amended: during the activate operation the failure of one
    namespace deletion does not abort the remaining deletions: every stale
    namespace whose own deletion goes through is deleted, and the one whose
    deletion failed stays.  The failure is not logged (the console gains
    the start line and one line per deletion started, nothing else), and it
    does abort the activate operation: its promise rejects and
    [clients.claim] is not called. *)
Theorem activate_deletion_failure
  (pf : Platform) (w : World) (failing : string) (err : JsError) :
  In failing (stale_names (caches w)) ->
  delete_failure pf failing = Some err ->
  (forall n, n <> CACHE_NAME -> delete_failure pf n = None ->
             ~ In n (storage_keys (caches (snd (handle_activate pf w))))) /\
  In failing (storage_keys (caches (snd (handle_activate pf w)))) /\
  (exists reason, fst (handle_activate pf w) = Rejected reason) /\
  claim_calls (snd (handle_activate pf w)) = claim_calls w /\
  console (snd (handle_activate pf w))
  = (console w
     ++ "[Service Worker] Service Worker アクティベート中..."
        :: map deletion_line (stale_names (caches w)))%list.
Proof.
  intros I D.
  assert (A : forallb (deletes_cleanly pf) (stale_names (caches w)) = false).
  { destruct (forallb _ (stale_names (caches w))) eqn:A; [|reflexivity].
    rewrite forallb_forall in A. specialize (A failing I).
    unfold deletes_cleanly in A. rewrite D in A. discriminate. }
  destruct (activate_run pf w) as [_ [F [C L]]].
  rewrite A in F, C, L.
  split; [|split; [|split; [|split]]].
  - intros n. apply activate_deletes.
  - apply stale_names_spec in I. destruct I as [I _].
    unfold storage_keys in I. apply in_map_iff in I. destruct I as [[n c] [E I]].
    simpl in E. subst n.
    unfold storage_keys. apply in_map_iff. exists (failing, c). split; [reflexivity|].
    apply activate_keeps; [exact I|]. right. rewrite D. discriminate.
  - destruct (fst (handle_activate pf w)) as [u|reason]; [discriminate|eauto].
  - exact C.
  - rewrite L. rewrite app_nil_r. reflexivity.
Qed.

Lemma activate_deletion_failure_witness :
  (forall n, n <> CACHE_NAME -> delete_failure stuck_platform n = None ->
             ~ In n (storage_keys
                       (caches (snd (handle_activate stuck_platform two_generations))))) /\
  In "pwa-test-cache-v0"
    (storage_keys (caches (snd (handle_activate stuck_platform two_generations)))) /\
  (exists reason, fst (handle_activate stuck_platform two_generations) = Rejected reason) /\
  claim_calls (snd (handle_activate stuck_platform two_generations))
  = claim_calls two_generations /\
  console (snd (handle_activate stuck_platform two_generations))
  = (console two_generations
     ++ "[Service Worker] Service Worker アクティベート中..."
        :: map deletion_line (stale_names (caches two_generations)))%list.
Proof.
  apply (activate_deletion_failure stuck_platform two_generations
           "pwa-test-cache-v0" (DOMException "UnknownError" "delete failed")).
  - simpl. tauto.
  - reflexivity.
Defined.

(** ** The message listener *)


(** C10, at the inputs on which the message listener does not do what the
    claim says: a message whose data is [null] or [undefined] makes the
    listener throw a [TypeError] while it builds its first log line, before
    the guard on [event.data] is reached; nothing is logged and
    [skipWaiting] is not called. *)
Theorem message_without_data_throws (w : World) :
  handle_message JNull w
  = (Throw (TypeError "Cannot read properties of null (reading 'type')"), w) /\
  handle_message JUndefined w
  = (Throw (TypeError "Cannot read properties of undefined (reading 'type')"), w).
Proof.
  split; reflexivity.
Qed.

(** * Further properties of the listeners *)

(** ** Writing several entries into a cache *)

Lemma cache_match_put_other (u k : string) (r : Response) (c : Cache) :
  k <> u -> cache_match u (cache_put k r c) = cache_match u c.
Proof.
  intros N. unfold cache_match, cache_put. f_equal.
  induction c as [|[k' r'] c IH]; simpl.
  - destruct (k =? u) eqn:E; [|reflexivity].
    apply String.eqb_eq in E. contradiction.
  - destruct (k' =? k) eqn:E; simpl.
    + apply String.eqb_eq in E. subst k'.
      destruct (k =? u) eqn:E2; [|exact IH].
      apply String.eqb_eq in E2. contradiction.
    + destruct (k' =? u); [reflexivity|exact IH].
Qed.

(** After a batch of writes the last write to a key is the one read back;
    keys the batch does not mention read as before. *)
Lemma cache_match_put_all (u : string) (es : list (string * Response)) (c : Cache) :
  cache_match u (cache_put_all es c)
  = match find (fun e => fst e =? u) (rev es) with
    | Some e => Some (snd e)
    | None => cache_match u c
    end.
Proof.
  induction es as [|[k r] es IH] using rev_ind; [reflexivity|].
  unfold cache_put_all in *. rewrite fold_left_app, rev_app_distr. simpl.
  destruct (k =? u) eqn:E.
  - apply String.eqb_eq in E. subst k. apply cache_match_put_same.
  - rewrite cache_match_put_other; [exact IH|].
    intros ->. rewrite String.eqb_refl in E. discriminate.
Qed.

(** What [Promise.all] fulfils with, element by element. *)
Lemma all_settled_fulfilled {A B : Type} (f : A -> Settled B) (l : list A)
  (rs : list B) :
  all_settled (map f l) = Fulfilled rs ->
  length rs = length l /\
  forall x r, In (x, r) (combine l rs) -> f x = Fulfilled r.
Proof.
  revert rs. induction l as [|y l IH]; intros rs; simpl.
  - intros H. injection H as <-. split; [reflexivity|contradiction].
  - destruct (f y) as [b|e] eqn:F; [|discriminate].
    destruct (all_settled (map f l)) as [rs'|e] eqn:S; [|discriminate].
    intros H. injection H as <-.
    destruct (IH rs' eq_refl) as [L C]. split; [simpl; congruence|].
    intros x r [E|I].
    + injection E as <- <-. exact F.
    + exact (C x r I).
Qed.



(** ** The install listener, continued *)

Lemma install_success_run (pf : Platform) (w : World) (rs : list Response) :
  all_settled (map (addAll_outcome pf) CACHE_RESOURCES) = Fulfilled rs ->
  handle_install pf w
  = (Fulfilled tt,
     mkWorld
       (storage_update CACHE_NAME (cache_put_all (combine CACHE_RESOURCES rs))
          (storage_open CACHE_NAME (caches w)))
       (console w
        ++ [ "[Service Worker] Service Worker インストール中...";
             "[Service Worker] キャッシュを開いて必要なリソースを追加中...";
             "[Service Worker] 事前キャッシュ完了" ])%list
       (network w ++ map request_of_path CACHE_RESOURCES)%list
       (S (skipWaiting_calls w)) (claim_calls w)).
Proof.
  intros R.
  unfold handle_install, catch_, then_, cache_addAll, caches_open, log, console_log,
    self_skipWaiting.
  cbn [set_console set_caches caches console network skipWaiting_calls claim_calls].
  rewrite addAll_fetches_run, R.
  cbn [set_console set_caches caches console network skipWaiting_calls claim_calls].
  repeat rewrite <- app_assoc. reflexivity.
Qed.

(** X1: the promise the install listener gives to [event.waitUntil] never
    rejects, whatever the network does. *)
Theorem install_never_rejects (pf : Platform) (w : World) :
  fst (handle_install pf w) = Fulfilled tt.
Proof.
  destruct (all_settled (map (addAll_outcome pf) CACHE_RESOURCES)) as [rs|e] eqn:R.
  - rewrite (install_success_run pf w rs R). reflexivity.
  - rewrite (install_failure_run pf w e R). reflexivity.
Qed.




(** X4: a manifest path that the server answers with a status
    [cache.addAll] does not accept (a 404, say) aborts the pre-population
    like a network failure does: no entry is committed, [skipWaiting] is not
    called, and the promise still fulfils. *)
Theorem install_bad_status
  (pf : Platform) (w : World) (path : string) (r : Response) :
  In path CACHE_RESOURCES ->
  transport pf (request_of_path path) = Fulfilled r ->
  addAll_accepts r = false ->
  fst (handle_install pf w) = Fulfilled tt /\
  caches (snd (handle_install pf w)) = storage_open CACHE_NAME (caches w) /\
  skipWaiting_calls (snd (handle_install pf w)) = skipWaiting_calls w.
Proof.
  intros I T A.
  assert (O : addAll_outcome pf path = Rejected (TypeError "Request failed")).
  { unfold addAll_outcome. rewrite T, A. reflexivity. }
  destruct (all_settled_rejects (addAll_outcome pf) _ _ _ I O) as [reason R].
  rewrite (install_failure_run pf w reason R). repeat split.
Qed.

Lemma install_bad_status_witness :
  fst (handle_install not_found_platform fresh_world) = Fulfilled tt /\
  caches (snd (handle_install not_found_platform fresh_world))
  = storage_open CACHE_NAME (caches fresh_world) /\
  skipWaiting_calls (snd (handle_install not_found_platform fresh_world))
  = skipWaiting_calls fresh_world.
Proof.
  apply (install_bad_status not_found_platform fresh_world "/manifest.json"
           (mkResponse 404 "Not Found" basic "")).
  - simpl. tauto.
  - reflexivity.
  - reflexivity.
Defined.

Lemma filter_none {A : Type} (f : A -> bool) (l : list A) :
  (forall x, In x l -> f x = false) -> filter f l = [].
Proof.
  induction l as [|x l IH]; intros H; simpl; [reflexivity|].
  rewrite (H x (or_introl eq_refl)). apply IH.
  intros y I. apply H. right. exact I.
Qed.

(** A batch of writes with distinct keys drops the old entries of those
    keys and appends the batch. *)
Lemma cache_put_all_distinct (es : list (string * Response)) (c : Cache) :
  NoDup (map fst es) ->
  cache_put_all es c = (filter (not_written es) c ++ es)%list.
Proof.
  revert c. induction es as [|[k r] es IH]; intros c D.
  - simpl. unfold not_written. simpl. rewrite filter_all, app_nil_r. reflexivity.
  - inversion D as [|k' l' N D']; subst.
    change (cache_put_all ((k, r) :: es) c) with (cache_put_all es (cache_put k r c)).
    rewrite (IH _ D'). unfold cache_put.
    rewrite filter_app, filter_filter_and, <- app_assoc.
    f_equal.
    + apply filter_ext. intros p. unfold not_written. simpl.
      rewrite negb_orb. reflexivity.
    + simpl. unfold not_written at 1. simpl.
      replace (existsb (fun e => k =? fst e) es) with false; [reflexivity|].
      symmetry. destruct (existsb (fun e => k =? fst e) es) eqn:X; [|reflexivity].
      apply existsb_exists in X. destruct X as [e [I E]].
      apply String.eqb_eq in E. subst k.
      exfalso. apply N. apply in_map. exact I.
Qed.

Lemma cache_put_all_twice (es : list (string * Response)) (c : Cache) :
  NoDup (map fst es) ->
  cache_put_all es (cache_put_all es c) = cache_put_all es c.
Proof.
  intros D. rewrite !(cache_put_all_distinct es _ D).
  rewrite filter_app, <- app_assoc. f_equal.
  - rewrite filter_filter_and. apply filter_ext. intros p. apply andb_diag.
  - rewrite (filter_none (not_written es) es); [reflexivity|].
    intros x I. unfold not_written. apply negb_false_iff.
    apply existsb_exists. exists x. split; [exact I|apply String.eqb_refl].
Qed.

Lemma map_fst_combine {A B : Type} (l : list A) (rs : list B) :
  length rs = length l -> map fst (combine l rs) = l.
Proof.
  revert rs. induction l as [|x l IH]; intros rs L; [reflexivity|].
  destruct rs as [|r rs]; [discriminate|]. simpl. f_equal.
  apply IH. simpl in L. congruence.
Qed.

Lemma storage_has_update (name : string) (f : Cache -> Cache) (cs : CacheStorage) :
  storage_has name (storage_update name f cs) = storage_has name cs.
Proof.
  unfold storage_has, storage_update.
  induction cs as [|[n c] cs IH]; simpl; [reflexivity|].
  destruct (n =? name) eqn:E; simpl; rewrite E, IH; reflexivity.
Qed.

Lemma storage_update_twice (name : string) (f : Cache -> Cache) (cs : CacheStorage) :
  (forall c, f (f c) = f c) ->
  storage_update name f (storage_update name f cs) = storage_update name f cs.
Proof.
  intros H. unfold storage_update. rewrite map_map. apply map_ext.
  intros [n c]. simpl. destruct (n =? name) eqn:E; simpl; rewrite E; [|reflexivity].
  rewrite H. reflexivity.
Qed.

Lemma storage_open_present (name : string) (cs : CacheStorage) :
  storage_has name cs = true -> storage_open name cs = cs.
Proof.
  intros H. unfold storage_open. rewrite H. reflexivity.
Qed.

Lemma manifest_distinct : NoDup CACHE_RESOURCES.
Proof.
  unfold CACHE_RESOURCES.
  repeat (constructor; [simpl; intuition discriminate|]). constructor.
Qed.

(** X5: installing twice from the same server leaves the storage as one
    install does: the namespace holds every manifest entry once. *)
Theorem install_idempotent (pf : Platform) (w : World) :
  caches (snd (handle_install pf (snd (handle_install pf w))))
  = caches (snd (handle_install pf w)).
Proof.
  destruct (all_settled (map (addAll_outcome pf) CACHE_RESOURCES)) as [rs|e] eqn:R.
  - rewrite (install_success_run pf _ rs R), (install_success_run pf w rs R).
    cbn [snd caches].
    rewrite (storage_open_present CACHE_NAME).
    + apply storage_update_twice. intros c. apply cache_put_all_twice.
      rewrite map_fst_combine; [apply manifest_distinct|].
      apply (all_settled_fulfilled _ _ _ R).
    + rewrite storage_has_update. apply storage_has_open.
  - rewrite (install_failure_run pf _ e R), (install_failure_run pf w e R).
    cbn [snd caches]. apply storage_open_present. apply storage_has_open.
Qed.

Lemma storage_get_update_other (name other : string) (f : Cache -> Cache)
  (cs : CacheStorage) :
  other <> name ->
  storage_get other (storage_update name f cs) = storage_get other cs.
Proof.
  intros N. unfold storage_get, storage_update. f_equal.
  induction cs as [|[n c] cs IH]; simpl; [reflexivity|].
  destruct (n =? name) eqn:E; simpl.
  - apply String.eqb_eq in E. subst n.
    destruct (name =? other) eqn:E2; [|exact IH].
    apply String.eqb_eq in E2. congruence.
  - destruct (n =? other); [reflexivity|exact IH].
Qed.

Lemma storage_get_open_other (name other : string) (cs : CacheStorage) :
  other <> name -> storage_get other (storage_open name cs) = storage_get other cs.
Proof.
  intros N. unfold storage_open. destruct (storage_has name cs); [reflexivity|].
  unfold storage_get. f_equal.
  induction cs as [|[n c] cs IH]; simpl.
  - destruct (name =? other) eqn:E; [|reflexivity].
    apply String.eqb_eq in E. congruence.
  - destruct (n =? other); [reflexivity|exact IH].
Qed.

(** X6: the install listener writes manifest paths into the current
    namespace and nothing else: every other namespace, and every entry of
    the current namespace whose key is not a manifest path, reads as
    before. *)
Theorem install_writes_only_manifest
  (pf : Platform) (w : World) (name u : string) :
  name <> CACHE_NAME \/ ~ In u CACHE_RESOURCES ->
  namespace_lookup name u (caches (snd (handle_install pf w)))
  = namespace_lookup name u (caches w).
Proof.
  intros H. unfold namespace_lookup.
  destruct (string_dec name CACHE_NAME) as [->|N].
  - destruct H as [H|H]; [contradiction|].
    destruct (all_settled (map (addAll_outcome pf) CACHE_RESOURCES)) as [rs|e] eqn:R.
    + rewrite (install_success_run pf w rs R). cbn [snd caches].
      rewrite storage_get_update, storage_get_open. cbn [option_map].
      rewrite cache_match_put_all.
      destruct (find (fun e => fst e =? u) (rev (combine CACHE_RESOURCES rs)))
        as [[k r]|] eqn:F.
      * exfalso. apply find_some in F. destruct F as [I E]. simpl in E.
        apply String.eqb_eq in E. subst k. apply in_rev in I.
        apply in_combine_l in I. contradiction.
      * destruct (storage_get CACHE_NAME (caches w)); reflexivity.
    + rewrite (install_failure_run pf w e R). cbn [snd caches].
      rewrite storage_get_open.
      destruct (storage_get CACHE_NAME (caches w)); reflexivity.
  - destruct (all_settled (map (addAll_outcome pf) CACHE_RESOURCES)) as [rs|e] eqn:R.
    + rewrite (install_success_run pf w rs R). cbn [snd caches].
      rewrite storage_get_update_other, storage_get_open_other by exact N.
      reflexivity.
    + rewrite (install_failure_run pf w e R). cbn [snd caches].
      rewrite storage_get_open_other by exact N. reflexivity.
Qed.

Lemma install_writes_only_manifest_witness :
  namespace_lookup "pwa-test-cache-v0" "/index.html"
    (caches (snd (handle_install online_platform two_generations)))
  = namespace_lookup "pwa-test-cache-v0" "/index.html" (caches two_generations).
Proof.
  apply (install_writes_only_manifest online_platform two_generations
           "pwa-test-cache-v0" "/index.html").
  left. discriminate.
Defined.

(** ** The activate listener, continued *)

Lemma filter_keeps_all {A : Type} (f : A -> bool) (l : list A) :
  (forall x, In x l -> f x = true) -> filter f l = l.
Proof.
  induction l as [|x l IH]; intros H; simpl; [reflexivity|].
  rewrite (H x (or_introl eq_refl)). f_equal. apply IH.
  intros y I. apply H. right. exact I.
Qed.

(** The activate listener uses neither the network nor [skipWaiting]. *)
Lemma activate_untouched (pf : Platform) (w : World) :
  network (snd (handle_activate pf w)) = network w /\
  skipWaiting_calls (snd (handle_activate pf w)) = skipWaiting_calls w.
Proof.
  assert (H : handle_activate pf w
              = let (os, w1) :=
                  array_map
                    (fun cacheName =>
                       log ("古いキャッシュを削除: " ++ cacheName) ;;
                       caches_delete pf cacheName)
                    (stale_names (caches w))
                    (snd (log "Service Worker アクティベート中..." w)) in
                match all_settled os with
                | Fulfilled _ =>
                    (log "Service Worker アクティベート完了" ;; clients_claim) w1
                | Rejected e => (Rejected e, w1)
                end).
  { unfold handle_activate, then_, caches_keys, Promise_all, stale_names.
    cbn [log console_log fst snd set_console caches].
    destruct (array_map _ _ _). reflexivity. }
  rewrite H. clear H.
  match goal with
  | |- context [array_map ?f ?l ?w1] =>
      destruct (deletions_run pf l w1) as [R1 _];
      destruct (array_map f l w1) as [os w2]
  end.
  cbn [log console_log fst snd set_console caches console network
         skipWaiting_calls claim_calls] in R1.
  subst w2. destruct (all_settled os); split; reflexivity.
Qed.

(** X7: the activate operation completes (its promise fulfils) exactly when
    no deletion of a stale namespace fails, and [clients.claim] is called,
    once, exactly in that case. *)
Theorem activate_fulfils_iff (pf : Platform) (w : World) :
  (fst (handle_activate pf w) = Fulfilled tt
   <-> forall n, In n (stale_names (caches w)) -> delete_failure pf n = None) /\
  claim_calls (snd (handle_activate pf w))
  = (if is_fulfilled (fst (handle_activate pf w))
     then S (claim_calls w) else claim_calls w).
Proof.
  destruct (activate_run pf w) as [_ [F [C _]]].
  split; [|rewrite F; exact C].
  split.
  - intros E n I. rewrite E in F. cbn [is_fulfilled] in F. symmetry in F.
    rewrite forallb_forall in F. specialize (F n I).
    unfold deletes_cleanly in F. destruct (delete_failure pf n); [discriminate|].
    reflexivity.
  - intros H.
    assert (A : forallb (deletes_cleanly pf) (stale_names (caches w)) = true).
    { apply forallb_forall. intros n I. unfold deletes_cleanly.
      rewrite (H n I). reflexivity. }
    rewrite A in F.
    destruct (fst (handle_activate pf w)) as [[]|e]; [reflexivity|discriminate].
Qed.

(** X8: whether or not deletions fail, the activate listener leaves the
    current namespace with its content, sends nothing on the network and
    does not call [skipWaiting]. *)
Theorem activate_spares_current_namespace (pf : Platform) (w : World) :
  storage_get CACHE_NAME (caches (snd (handle_activate pf w)))
  = storage_get CACHE_NAME (caches w) /\
  network (snd (handle_activate pf w)) = network w /\
  skipWaiting_calls (snd (handle_activate pf w)) = skipWaiting_calls w.
Proof.
  split; [apply activate_current_namespace|apply activate_untouched].
Qed.

(** X9: once activate has run, running it again on the same platform does
    not change the storage any further. *)
Theorem activate_idempotent (pf : Platform) (w : World) :
  caches (snd (handle_activate pf (snd (handle_activate pf w))))
  = caches (snd (handle_activate pf w)).
Proof.
  destruct (activate_run pf (snd (handle_activate pf w))) as [C2 _].
  rewrite C2. clear C2.
  destruct (activate_run pf w) as [C1 _].
  apply filter_keeps_all. intros p I. rewrite C1 in I.
  apply filter_In in I. destruct I as [I S].
  destruct (string_dec (fst p) CACHE_NAME) as [E|N].
  - apply survives_current. exact E.
  - apply survives_true. intros D.
    rewrite survives_false in S; [discriminate| |exact D].
    apply stale_names_spec. split; [|exact N].
    unfold storage_keys. apply in_map. exact I.
Qed.

(** X10: when no stale namespace exists, as on a first installation,
    activate deletes nothing: the storage is left as it is, the
    promise fulfils and [clients.claim] is called. *)
Theorem activate_nothing_stale (pf : Platform) (w : World) :
  (forall n, In n (storage_keys (caches w)) -> n = CACHE_NAME) ->
  fst (handle_activate pf w) = Fulfilled tt /\
  caches (snd (handle_activate pf w)) = caches w /\
  claim_calls (snd (handle_activate pf w)) = S (claim_calls w).
Proof.
  intros H.
  assert (E : stale_names (caches w) = []).
  { unfold stale_names. apply filter_none. intros n I.
    rewrite (H n I). rewrite String.eqb_refl. reflexivity. }
  destruct (activate_run pf w) as [C [F [K _]]].
  rewrite E in C, F, K. cbn [forallb] in F, K.
  split; [|split; [|exact K]].
  - destruct (fst (handle_activate pf w)) as [[]|e]; [reflexivity|discriminate].
  - rewrite C. apply filter_keeps_all. intros p _. reflexivity.
Qed.

Lemma activate_nothing_stale_witness :
  fst (handle_activate stuck_platform installed_world) = Fulfilled tt /\
  caches (snd (handle_activate stuck_platform installed_world))
  = caches installed_world /\
  claim_calls (snd (handle_activate stuck_platform installed_world))
  = S (claim_calls installed_world).
Proof.
  apply (activate_nothing_stale stuck_platform installed_world).
  intros n I. vm_compute in I. destruct I as [I|[]]. symmetry. exact I.
Defined.

(** ** The fetch listener, continued *)

(** What the promise given to [event.respondWith] does to the storage: it
    writes at most the network's answer, under the request's URL, into the
    current namespace, and only after a cache miss; when the store refuses
    the write, the current namespace has at most been created. *)
Lemma respond_caches (pf : Platform) (request : Request) (w : World) :
  caches (snd (respond pf request w)) = caches w \/
  storage_match (url request) (caches w) = None /\
  (caches (snd (respond pf request w)) = storage_open CACHE_NAME (caches w) \/
   exists response,
     caches (snd (respond pf request w))
     = storage_update CACHE_NAME (cache_put (url request) (clone response))
         (storage_open CACHE_NAME (caches w))).
Proof.
  destruct (storage_match (url request) (caches w)) as [cached|] eqn:M.
  - left. rewrite (respond_hit pf request w cached M). reflexivity.
  - destruct (transport pf request) as [response|err] eqn:T.
    + destruct (Nat.eq_dec (status response) 200) as [S|S].
      * destruct (type response) eqn:B;
          try (left; rewrite (respond_network_uncached pf request w response M T);
               [reflexivity|right; congruence]).
        right. split; [reflexivity|].
        destruct (respond_network_cached pf request w response M T S B) as [_ C].
        rewrite C.
        destruct (put_failure pf request (clone response)); [left|right; eauto].
        reflexivity.
      * left. rewrite (respond_network_uncached pf request w response M T);
          [reflexivity|left; exact S].
    + left. apply (respond_offline pf request w err M T).
Qed.

Lemma respond_network (pf : Platform) (request : Request) (w : World) :
  network (snd (respond pf request w))
  = match storage_match (url request) (caches w) with
    | Some _ => network w
    | None => (network w ++ [request])%list
    end.
Proof.
  unfold respond, catch_, then_, caches_match.
  destruct (storage_match (url request) (caches w)) as [cached|] eqn:M.
  - reflexivity.
  - cbn [log console_log fetch set_console caches console network
           skipWaiting_calls claim_calls].
    destruct (transport pf request) as [response|err].
    + destruct (negb (status response =? 200)%nat
                || negb match type response with basic => true | _ => false end);
        [reflexivity|].
      unfold detached, then_, caches_open, cache_put_.
      cbn [fst snd set_caches set_console caches console network
             skipWaiting_calls claim_calls].
      destruct (put_failure pf request (clone response)); reflexivity.
    + cbn [set_console caches console network skipWaiting_calls claim_calls].
      destruct (destination request =? "document"); reflexivity.
Qed.

Lemma storage_match_update_other (name u k : string) (r : Response)
  (cs : CacheStorage) :
  k <> u ->
  storage_match u (storage_update name (cache_put k r) cs) = storage_match u cs.
Proof.
  intros N. unfold storage_update.
  induction cs as [|[n c] cs IH]; simpl; [reflexivity|].
  destruct (n =? name); simpl.
  - rewrite cache_match_put_other by exact N. rewrite IH. reflexivity.
  - rewrite IH. reflexivity.
Qed.

(** X11: for every request the fetch listener either leaves the event
    alone, with nothing logged, fetched or written (any method but GET), or
    gives [event.respondWith] a promise that fulfils: that promise never
    rejects. *)
Theorem fetch_passes_through_or_fulfils
  (pf : Platform) (request : Request) (w : World) :
  (method request <> "GET" /\ handle_fetch pf request w = (None, w)) \/
  (method request = "GET" /\
   exists v, fst (handle_fetch pf request w) = Some (Fulfilled v)).
Proof.
  destruct (string_dec (method request) "GET") as [G|G].
  - right. split; [exact G|]. rewrite handle_fetch_GET by exact G.
    destruct (respond_fulfils pf request w) as [v E]. exists v.
    cbn [fst]. rewrite E. reflexivity.
  - left. split; [exact G|]. apply handle_fetch_not_GET. exact G.
Qed.

(** X12: handling a GET request uses the network at most once: not at all
    on a cache hit, and on a miss for exactly the request of the event. *)
Theorem fetch_network_use (pf : Platform) (request : Request) (w : World) :
  method request = "GET" ->
  network (snd (handle_fetch pf request w))
  = match storage_match (url request) (caches w) with
    | Some _ => network w
    | None => (network w ++ [request])%list
    end.
Proof.
  intros G. rewrite handle_fetch_GET by exact G. apply respond_network.
Qed.

Lemma fetch_network_use_witness :
  network (snd (handle_fetch online_platform stylesheet installed_world))
  = (network installed_world ++ [stylesheet])%list.
Proof.
  apply (fetch_network_use online_platform stylesheet installed_world).
  reflexivity.
Defined.

Lemma handle_fetch_caches (pf : Platform) (request : Request) (w : World) :
  caches (snd (handle_fetch pf request w)) = caches w \/
  storage_match (url request) (caches w) = None /\
  (caches (snd (handle_fetch pf request w)) = storage_open CACHE_NAME (caches w) \/
   exists response,
     caches (snd (handle_fetch pf request w))
     = storage_update CACHE_NAME (cache_put (url request) (clone response))
         (storage_open CACHE_NAME (caches w))).
Proof.
  destruct (string_dec (method request) "GET") as [G|G].
  - rewrite handle_fetch_GET by exact G. cbn [snd]. apply respond_caches.
  - rewrite handle_fetch_not_GET by exact G. left. reflexivity.
Qed.

(** X13: the fetch listener writes nothing but the entry of the request it
    handles, in the current namespace: every other namespace and every
    entry under another URL reads as before. *)
Theorem fetch_write_isolation
  (pf : Platform) (request : Request) (w : World) (name u : string) :
  name <> CACHE_NAME \/ u <> url request ->
  namespace_lookup name u (caches (snd (handle_fetch pf request w)))
  = namespace_lookup name u (caches w).
Proof.
  intros H.
  destruct (handle_fetch_caches pf request w) as [C|[_ [C|[response C]]]];
    rewrite C; [reflexivity| |]; unfold namespace_lookup.
  - destruct (string_dec name CACHE_NAME) as [->|N].
    + rewrite storage_get_open.
      destruct (storage_get CACHE_NAME (caches w)); reflexivity.
    + rewrite storage_get_open_other by exact N. reflexivity.
  - destruct (string_dec name CACHE_NAME) as [->|N].
    + destruct H as [H|H]; [contradiction|].
      rewrite storage_get_update, storage_get_open. cbn [option_map].
      rewrite cache_match_put_other by congruence.
      destruct (storage_get CACHE_NAME (caches w)); reflexivity.
    + rewrite storage_get_update_other, storage_get_open_other by exact N.
      reflexivity.
Qed.

Lemma fetch_write_isolation_witness :
  namespace_lookup CACHE_NAME "/index.html"
    (caches (snd (handle_fetch online_platform stylesheet installed_world)))
  = namespace_lookup CACHE_NAME "/index.html" (caches installed_world).
Proof.
  apply (fetch_write_isolation online_platform stylesheet installed_world
           CACHE_NAME "/index.html").
  right. discriminate.
Defined.

(** X14: what [caches.match] finds before a fetch is handled it finds
    afterwards: the listener never replaces or removes a cached answer, so
    a cached entry is never refreshed from the network. *)
Theorem fetch_keeps_cached_answers
  (pf : Platform) (request : Request) (w : World) (u : string) (r : Response) :
  storage_match u (caches w) = Some r ->
  storage_match u (caches (snd (handle_fetch pf request w))) = Some r.
Proof.
  intros H.
  destruct (handle_fetch_caches pf request w) as [C|[M [C|[response C]]]];
    rewrite C; [exact H| |].
  - rewrite storage_match_open. exact H.
  - rewrite storage_match_update_other, storage_match_open; [exact H|].
    intros E. rewrite E in M. congruence.
Qed.

Lemma fetch_keeps_cached_answers_witness :
  storage_match "/index.html"
    (caches (snd (handle_fetch online_platform index_request two_generations)))
  = Some (page "old index").
Proof.
  apply (fetch_keeps_cached_answers online_platform index_request two_generations).
  reflexivity.
Defined.

(** X15: after a GET request missed the cache and was answered by the
    network with a basic response of status 200 that the cache store
    accepted to write, the same request is answered with that response from
    the cache, without the network, even when the network has gone. *)
Theorem fetch_second_time_from_cache
  (pf pf' : Platform) (request : Request) (w : World) (response : Response) :
  method request = "GET" ->
  storage_match (url request) (caches w) = None ->
  transport pf request = Fulfilled response ->
  status response = 200 ->
  type response = basic ->
  put_failure pf request (clone response) = None ->
  fst (handle_fetch pf' request (snd (handle_fetch pf request w)))
  = Some (Fulfilled (Some response)) /\
  network (snd (handle_fetch pf' request (snd (handle_fetch pf request w))))
  = network (snd (handle_fetch pf request w)).
Proof.
  intros G M T S B P.
  assert (H : storage_match (url request) (caches (snd (handle_fetch pf request w)))
              = Some response).
  { rewrite handle_fetch_GET by exact G. cbn [snd].
    destruct (respond_network_cached pf request w response M T S B) as [_ C].
    rewrite C, P. apply storage_match_update_miss.
    - rewrite storage_match_open. exact M.
    - apply storage_has_open. }
  rewrite (handle_fetch_GET pf' request _ G).
  rewrite (respond_hit pf' request _ response H). split; reflexivity.
Qed.

Lemma fetch_second_time_from_cache_witness :
  fst (handle_fetch offline_platform stylesheet
         (snd (handle_fetch online_platform stylesheet installed_world)))
  = Some (Fulfilled (Some (page "/css/extra.css"))) /\
  network (snd (handle_fetch offline_platform stylesheet
                  (snd (handle_fetch online_platform stylesheet installed_world))))
  = network (snd (handle_fetch online_platform stylesheet installed_world)).
Proof.
  apply (fetch_second_time_from_cache online_platform offline_platform stylesheet
           installed_world (page "/css/extra.css")); reflexivity.
Defined.

(** X16: as long as [caches.match] finds the offline page, every GET
    request is answered with a response: from the cache, from the network,
    the offline page or the synthetic 408 response. *)
Theorem fetch_answers_when_offline_page_cached
  (pf : Platform) (request : Request) (w : World) (offline_page : Response) :
  method request = "GET" ->
  storage_match OFFLINE_URL (caches w) = Some offline_page ->
  exists response,
    fst (handle_fetch pf request w) = Some (Fulfilled (Some response)).
Proof.
  intros G O. rewrite handle_fetch_GET by exact G. cbn [fst].
  destruct (respond_fulfils pf request w) as [[response|] E].
  - exists response. rewrite E. reflexivity.
  - destruct (respond_undefined_only_without_offline_page pf request w E)
      as [_ [_ [_ N]]].
    congruence.
Qed.

Lemma fetch_answers_when_offline_page_cached_witness :
  exists response,
    fst (handle_fetch offline_platform navigation installed_world)
    = Some (Fulfilled (Some response)).
Proof.
  apply (fetch_answers_when_offline_page_cached offline_platform navigation
           installed_world (page "/offline.html")); reflexivity.
Defined.

(** ** Install, activate, then fetch *)







(** ** The message listener, continued *)



(** ** The notificationclick listener *)

Lemma first_focusable_none (org : string) (clientList : list Client) :
  (forall c, In c clientList -> includes (client_url c) org && has_focus c = false) ->
  first_focusable org clientList = None.
Proof.
  induction clientList as [|c l IH]; intros H; simpl; [reflexivity|].
  rewrite (H c (or_introl eq_refl)). apply IH.
  intros c' I. apply H. right. exact I.
Qed.

Lemma first_focusable_app (org : string) (before after : list Client) (client : Client) :
  (forall c, In c before -> includes (client_url c) org && has_focus c = false) ->
  includes (client_url client) org = true ->
  has_focus client = true ->
  first_focusable org (before ++ client :: after) = Some client.
Proof.
  intros H U F. induction before as [|c l IH]; simpl.
  - rewrite U, F. reflexivity.
  - rewrite (H c (or_introl eq_refl)). apply IH.
    intros c' I. apply H. right. exact I.
Qed.

(** X19: every notification click closes the notification exactly once and
    shows no notification; it then focuses one tab, or opens one window on
    the application root, or does neither, never both.  With the action
    [close] it does neither and [event.waitUntil] is not called. *)
Theorem notificationclick_effects
  (np : NotificationPlatform) (action : string) (d : Desk) :
  close_calls (snd (handle_notificationclick np action d)) = S (close_calls d) /\
  showNotification_calls (snd (handle_notificationclick np action d))
  = showNotification_calls d /\
  ((focus_calls (snd (handle_notificationclick np action d)) = focus_calls d /\
    openWindow_calls (snd (handle_notificationclick np action d)) = openWindow_calls d)
   \/ (exists u,
         focus_calls (snd (handle_notificationclick np action d))
         = (focus_calls d ++ [u])%list /\
         openWindow_calls (snd (handle_notificationclick np action d))
         = openWindow_calls d)
   \/ (focus_calls (snd (handle_notificationclick np action d)) = focus_calls d /\
       openWindow_calls (snd (handle_notificationclick np action d))
       = (openWindow_calls d ++ ["/"])%list)) /\
  (action = "close" ->
   fst (handle_notificationclick np action d) = None /\
   focus_calls (snd (handle_notificationclick np action d)) = focus_calls d /\
   openWindow_calls (snd (handle_notificationclick np action d)) = openWindow_calls d).
Proof.
  unfold handle_notificationclick.
  destruct (action =? "close") eqn:A.
  - repeat split; try reflexivity. left. split; reflexivity.
  - assert (N : action <> "close") by (apply String.eqb_neq; exact A).
    destruct (matchAll np) as [clientList|e].
    + destruct (first_focusable (origin np) clientList) as [client|].
      * repeat split; try reflexivity; try contradiction.
        right. left. exists (client_url client). split; reflexivity.
      * destruct (openWindow_defined np).
        -- repeat split; try reflexivity; try contradiction.
           right. right. split; reflexivity.
        -- repeat split; try reflexivity; try contradiction.
           left. split; reflexivity.
    + repeat split; try reflexivity; try contradiction.
      left. split; reflexivity.
Qed.

(** X20: a click with another action than [close] focuses the first client
    in the list whose URL includes the worker's origin and that can be
    focused; no window is opened, and the promise settles as [focus()]
    does. *)
Theorem notificationclick_focuses_first_tab
  (np : NotificationPlatform) (action : string) (d : Desk)
  (before after : list Client) (client : Client) :
  action <> "close" ->
  matchAll np = Fulfilled (before ++ client :: after)%list ->
  (forall c, In c before ->
             includes (client_url c) (origin np) && has_focus c = false) ->
  includes (client_url client) (origin np) = true ->
  has_focus client = true ->
  fst (handle_notificationclick np action d) = Some (settle (focus_failure client)) /\
  focus_calls (snd (handle_notificationclick np action d))
  = (focus_calls d ++ [client_url client])%list /\
  openWindow_calls (snd (handle_notificationclick np action d)) = openWindow_calls d.
Proof.
  intros N M B U F. unfold handle_notificationclick.
  apply String.eqb_neq in N. rewrite N, M.
  rewrite (first_focusable_app _ before after client B U F).
  repeat split.
Qed.

Lemma notificationclick_focuses_first_tab_witness :
  fst (handle_notificationclick
         (quiet_platform [foreign_tab; app_tab; second_app_tab]) "open" fresh_desk)
  = Some (settle (focus_failure app_tab)) /\
  focus_calls
    (snd (handle_notificationclick
            (quiet_platform [foreign_tab; app_tab; second_app_tab]) "open" fresh_desk))
  = (focus_calls fresh_desk ++ [client_url app_tab])%list /\
  openWindow_calls
    (snd (handle_notificationclick
            (quiet_platform [foreign_tab; app_tab; second_app_tab]) "open" fresh_desk))
  = openWindow_calls fresh_desk.
Proof.
  apply (notificationclick_focuses_first_tab
           (quiet_platform [foreign_tab; app_tab; second_app_tab]) "open" fresh_desk
           [foreign_tab] [second_app_tab] app_tab).
  - discriminate.
  - reflexivity.
  - intros c [<-|[]]. reflexivity.
  - reflexivity.
  - reflexivity.
Defined.

(** X21: a click with another action than [close], when no client has a URL
    that includes the worker's origin and can be focused (in particular
    when no window is open) and [clients.openWindow] exists, opens one
    window on [/] and focuses nothing. *)
Theorem notificationclick_opens_root
  (np : NotificationPlatform) (action : string) (d : Desk) (clientList : list Client) :
  action <> "close" ->
  matchAll np = Fulfilled clientList ->
  (forall c, In c clientList ->
             includes (client_url c) (origin np) && has_focus c = false) ->
  openWindow_defined np = true ->
  fst (handle_notificationclick np action d) = Some (settle (openWindow_failure np)) /\
  openWindow_calls (snd (handle_notificationclick np action d))
  = (openWindow_calls d ++ ["/"])%list /\
  focus_calls (snd (handle_notificationclick np action d)) = focus_calls d.
Proof.
  intros N M B O. unfold handle_notificationclick.
  apply String.eqb_neq in N. rewrite N, M.
  rewrite (first_focusable_none _ clientList B), O.
  repeat split.
Qed.

Lemma notificationclick_opens_root_witness :
  fst (handle_notificationclick (quiet_platform [foreign_tab]) "" fresh_desk)
  = Some (settle (openWindow_failure (quiet_platform [foreign_tab]))) /\
  openWindow_calls
    (snd (handle_notificationclick (quiet_platform [foreign_tab]) "" fresh_desk))
  = (openWindow_calls fresh_desk ++ ["/"])%list /\
  focus_calls
    (snd (handle_notificationclick (quiet_platform [foreign_tab]) "" fresh_desk))
  = focus_calls fresh_desk.
Proof.
  apply (notificationclick_opens_root (quiet_platform [foreign_tab]) "" fresh_desk
           [foreign_tab]).
  - discriminate.
  - reflexivity.
  - intros c [<-|[]]. reflexivity.
  - reflexivity.
Defined.

(** ** The push listener *)

(** Reading the payload only logs. *)
Lemma push_read_desk (np : NotificationPlatform) (event_data : option PushMessageData)
  (vars : PushVariables) (d : Desk) :
  close_calls (snd (push_read np event_data vars d)) = close_calls d /\
  focus_calls (snd (push_read np event_data vars d)) = focus_calls d /\
  openWindow_calls (snd (push_read np event_data vars d)) = openWindow_calls d /\
  showNotification_calls (snd (push_read np event_data vars d))
  = showNotification_calls d /\
  caches (world (snd (push_read np event_data vars d))) = caches (world d) /\
  network (world (snd (push_read np event_data vars d))) = network (world d).
Proof.
  unfold push_read.
  destruct event_data as [pmd|]; [|repeat split].
  destruct (json pmd) as [data|printed]; [|repeat split].
  destruct (member "title" data); [|repeat split].
  destruct (member "body" data); [|repeat split].
  destruct (member "icon" data); repeat split.
Qed.

Lemma handle_push_run (np : NotificationPlatform)
  (event_data : option PushMessageData) (d : Desk) :
  fst (handle_push np event_data d) = Fulfilled tt /\
  showNotification_calls (snd (handle_push np event_data d))
  = (showNotification_calls d
     ++ [ (var_title (fst (push_read np event_data default_variables
                             (desk_log "プッシュ通知を受信" d))),
           push_options np
             (fst (push_read np event_data default_variables
                     (desk_log "プッシュ通知を受信" d)))) ])%list /\
  close_calls (snd (handle_push np event_data d)) = close_calls d /\
  focus_calls (snd (handle_push np event_data d)) = focus_calls d /\
  openWindow_calls (snd (handle_push np event_data d)) = openWindow_calls d /\
  caches (world (snd (handle_push np event_data d))) = caches (world d) /\
  network (world (snd (handle_push np event_data d))) = network (world d).
Proof.
  unfold handle_push.
  pose proof (push_read_desk np event_data default_variables
                (desk_log "プッシュ通知を受信" d)) as R.
  destruct (push_read np event_data default_variables
              (desk_log "プッシュ通知を受信" d)) as [vars d2].
  cbn [fst snd] in *. destruct R as [R1 [R2 [R3 [R4 [R5 R6]]]]].
  destruct (showNotification_failure np);
    cbn [fst snd desk_log world close_calls focus_calls openWindow_calls
           showNotification_calls log console_log set_console caches network];
    rewrite ?R1, ?R2, ?R3, ?R4, ?R5, ?R6; repeat split.
Qed.

(** X22: for every push event, with or without payload, readable or not, the
    promise given to [event.waitUntil] fulfils and [showNotification] is
    called exactly once, with the fixed badge, vibration pattern and
    actions: a payload chooses the title, body and icon at most.  The
    listener touches neither the caches nor the network, windows or tabs. *)
Theorem push_shows_one_notification
  (np : NotificationPlatform) (event_data : option PushMessageData) (d : Desk) :
  fst (handle_push np event_data d) = Fulfilled tt /\
  (exists title body icon,
     showNotification_calls (snd (handle_push np event_data d))
     = (showNotification_calls d
        ++ [ (title,
              mkNotificationOptions body icon "/icons/icon-72x72.png"
                [200; 100; 200] (Date_now np) 1
                [ ("open", "開く", "/icons/icon-192x192.png");
                  ("close", "閉じる", "/icons/icon-192x192.png") ]) ])%list) /\
  close_calls (snd (handle_push np event_data d)) = close_calls d /\
  focus_calls (snd (handle_push np event_data d)) = focus_calls d /\
  openWindow_calls (snd (handle_push np event_data d)) = openWindow_calls d /\
  caches (world (snd (handle_push np event_data d))) = caches (world d) /\
  network (world (snd (handle_push np event_data d))) = network (world d).
Proof.
  destruct (handle_push_run np event_data d) as [F [S R]].
  split; [exact F|]. split; [|exact R].
  rewrite S. unfold push_options. eauto.
Qed.

(** X23: without payload, or with a payload that parses to a number, a
    string, a boolean or an array, the notification shown is the default
    one: default title, body and icon. *)
Theorem push_default_notification
  (np : NotificationPlatform) (event_data : option PushMessageData) (d : Desk) :
  event_data = None \/
  (exists pmd value,
     event_data = Some pmd /\ json pmd = parsed value /\
     value <> json_null /\ forall members, value <> json_object members) ->
  showNotification_calls (snd (handle_push np event_data d))
  = (showNotification_calls d
     ++ [(json_string "PWAテスト", push_options np default_variables)])%list.
Proof.
  intros H. destruct (handle_push_run np event_data d) as [_ [S _]].
  rewrite S. clear S.
  assert (V : fst (push_read np event_data default_variables
                     (desk_log "プッシュ通知を受信" d)) = default_variables).
  { destruct H as [->|[pmd [value [-> [J [N O]]]]]]; [reflexivity|].
    unfold push_read. rewrite J.
    destruct value as [|b|n|s|items|members]; try reflexivity.
    - contradiction.
    - exfalso. exact (O members eq_refl). }
  rewrite V. reflexivity.
Qed.

Lemma push_default_notification_witness :
  showNotification_calls
    (snd (handle_push (quiet_platform [])
            (Some (mkPushMessageData (parsed (json_number 42)) "42")) fresh_desk))
  = (showNotification_calls fresh_desk
     ++ [(json_string "PWAテスト",
          push_options (quiet_platform []) default_variables)])%list.
Proof.
  apply (push_default_notification (quiet_platform [])
           (Some (mkPushMessageData (parsed (json_number 42)) "42")) fresh_desk).
  right. exists (mkPushMessageData (parsed (json_number 42)) "42"), (json_number 42).
  repeat split; discriminate.
Defined.

(** X24: with a payload that [json()] cannot parse, or that parses to
    [null], the notification keeps the default title and icon and shows the
    payload text as its body, or the default body when the text is
    empty. *)
Theorem push_unreadable_payload
  (np : NotificationPlatform) (pmd : PushMessageData) (d : Desk) :
  (exists printed, json pmd = syntax_error printed) \/ json pmd = parsed json_null ->
  showNotification_calls (snd (handle_push np (Some pmd) d))
  = (showNotification_calls d
     ++ [ (json_string "PWAテスト",
           push_options np
             (mkPushVariables (json_string "PWAテスト")
                (if text pmd =? "" then json_string "プッシュ通知のテストです"
                 else json_string (text pmd))
                (json_string "/icons/icon-192x192.png"))) ])%list.
Proof.
  intros H. destruct (handle_push_run np (Some pmd) d) as [_ [S _]].
  rewrite S. clear S.
  assert (V : fst (push_read np (Some pmd) default_variables
                     (desk_log "プッシュ通知を受信" d))
              = mkPushVariables (json_string "PWAテスト")
                  (if text pmd =? "" then json_string "プッシュ通知のテストです"
                   else json_string (text pmd))
                  (json_string "/icons/icon-192x192.png")).
  { unfold push_read.
    destruct H as [[printed ->]| ->]; cbn [member push_catch fst];
      unfold or_else, json_truthy, default_variables;
      cbn [var_title var_body var_icon];
      destruct (text pmd =? ""); reflexivity. }
  rewrite V. reflexivity.
Qed.

Lemma push_unreadable_payload_witness :
  showNotification_calls
    (snd (handle_push (quiet_platform [])
            (Some (mkPushMessageData (parsed json_null) "null")) fresh_desk))
  = (showNotification_calls fresh_desk
     ++ [ (json_string "PWAテスト",
           push_options (quiet_platform [])
             (mkPushVariables (json_string "PWAテスト")
                (if text (mkPushMessageData (parsed json_null) "null") =? ""
                 then json_string "プッシュ通知のテストです"
                 else json_string (text (mkPushMessageData (parsed json_null) "null")))
                (json_string "/icons/icon-192x192.png"))) ])%list.
Proof.
  apply (push_unreadable_payload (quiet_platform [])
           (mkPushMessageData (parsed json_null) "null") fresh_desk).
  right. reflexivity.
Defined.

(** X25: with an object payload, each of title, body and icon is taken
    from the payload when the payload has a truthy value for it, and keeps
    its default otherwise; the three are chosen independently. *)
Theorem push_object_payload
  (np : NotificationPlatform) (pmd : PushMessageData) (d : Desk)
  (members : list (string * Json)) :
  json pmd = parsed (json_object members) ->
  let pick key fallback :=
    match find (fun p => fst p =? key) members with
    | Some (_, value) => if json_truthy value then value else fallback
    | None => fallback
    end in
  showNotification_calls (snd (handle_push np (Some pmd) d))
  = (showNotification_calls d
     ++ [ (pick "title" (json_string "PWAテスト"),
           push_options np
             (mkPushVariables
                (pick "title" (json_string "PWAテスト"))
                (pick "body" (json_string "プッシュ通知のテストです"))
                (pick "icon" (json_string "/icons/icon-192x192.png")))) ])%list.
Proof.
  intros J pick. destruct (handle_push_run np (Some pmd) d) as [_ [S _]].
  rewrite S. clear S.
  assert (V : fst (push_read np (Some pmd) default_variables
                     (desk_log "プッシュ通知を受信" d))
              = mkPushVariables
                  (pick "title" (json_string "PWAテスト"))
                  (pick "body" (json_string "プッシュ通知のテストです"))
                  (pick "icon" (json_string "/icons/icon-192x192.png"))).
  { unfold push_read. rewrite J. cbn [member fst]. unfold pick, or_else.
    cbn [default_variables var_title var_body var_icon].
    destruct (find (fun p => fst p =? "title") members) as [[k1 v1]|];
      destruct (find (fun p => fst p =? "body") members) as [[k2 v2]|];
      destruct (find (fun p => fst p =? "icon") members) as [[k3 v3]|];
      reflexivity. }
  rewrite V. reflexivity.
Qed.

Lemma push_object_payload_witness :
  showNotification_calls
    (snd (handle_push (quiet_platform [])
            (Some (mkPushMessageData
                     (parsed (json_object [ ("title", json_string "");
                                            ("body", json_string "Hello") ]))
                     "{...}"))
            fresh_desk))
  = [ (json_string "PWAテスト",
       push_options (quiet_platform [])
         (mkPushVariables (json_string "PWAテスト") (json_string "Hello")
            (json_string "/icons/icon-192x192.png"))) ].
Proof.
  apply (push_object_payload (quiet_platform [])
           (mkPushMessageData
              (parsed (json_object [ ("title", json_string "");
                                     ("body", json_string "Hello") ]))
              "{...}")
           fresh_desk
           [ ("title", json_string ""); ("body", json_string "Hello") ]).
  reflexivity.
Defined.
